(** * The spectral mismatch factor of Polo and Sanz-Saiz

    A shallow embedding of [spectral_factor_polo]
    (src/spectral_factor_polo.py) and the properties its specification
    states about it.

    The function is ten lines of arithmetic on values that are, at run
    time, built-in Python floats, NumPy [float64] scalars or NumPy arrays.
    Which of the three an operand is decides what an operator does (a
    built-in division by zero raises, a NumPy one returns an infinity), so
    the embedding keeps the distinction: numbers are IEEE binary64 values
    (Rocq's primitive floats), tagged with the kind of object that carries
    them, and every operator returns either a value or the exception it
    raises. *)

From Stdlib Require Import Floats ZArith String List Bool Lia.
Import ListNotations.

Set Warnings "-inexact-float".

(** ** Exceptions and results *)

Inductive exn : Type :=
| ValueError (msg : string)
| KeyError (key : string)
| IndexError
| TypeError
| ZeroDivisionError
| OverflowError.

Inductive result (A : Type) : Type :=
| Ok (a : A)
| Raise (e : exn).

Arguments Ok {A} a.
Arguments Raise {A} e.

Definition bind {A B : Type} (r : result A) (k : A -> result B) : result B :=
  match r with
  | Ok a => k a
  | Raise e => Raise e
  end.

Declare Scope py_scope.
Delimit Scope py_scope with py.
Local Open Scope py_scope.

Notation "x <- r ;; k" := (bind r (fun x => k))
  (at level 61, r at next level, right associativity) : py_scope.

(** ** Values

    [PyFloat] is a built-in float; a Python integer is represented by the
    float it converts to (in this function an integer operand always meets
    a float operand, or is divided by true division).  [NpFloat] is a
    [numpy.float64] scalar and [NpArray] a one-dimensional [float64]
    array. *)

Inductive value : Type :=
| PyFloat (x : float)
| NpFloat (x : float)
| NpArray (xs : list float).

Definition is_array (v : value) : bool :=
  match v with
  | NpArray _ => true
  | _ => false
  end.

(** The number carried by a scalar (an array has none; [nan] stands in). *)
Definition to_float (v : value) : float :=
  match v with
  | PyFloat x | NpFloat x => x
  | NpArray _ => nan
  end.

Fixpoint map2 {A B C : Type} (f : A -> B -> C) (xs : list A) (ys : list B) : list C :=
  match xs, ys with
  | x :: xs', y :: ys' => f x y :: map2 f xs' ys'
  | _, _ => []
  end.

Definition shape_mismatch : string := "operands could not be broadcast together".

(** NumPy broadcasting of two one-dimensional arrays: equal lengths pair
    up, a length-one array is stretched, anything else is a [ValueError]. *)
Definition broadcast (f : float -> float -> float) (xs ys : list float)
  : result (list float) :=
  if Nat.eqb (length xs) (length ys) then Ok (map2 f xs ys)
  else match xs, ys with
       | [x], _ => Ok (map (f x) ys)
       | _, [y] => Ok (map (fun x => f x y) xs)
       | _, _ => Raise (ValueError shape_mismatch)
       end.

(** A binary operator.  Two built-in floats use the built-in operation
    [pyf], which may raise; as soon as one operand is a NumPy object the
    IEEE operation [f] is applied, element by element, and nothing is
    raised (NumPy only warns). *)
Definition v_binop (f : float -> float -> float)
  (pyf : float -> float -> result float) (a b : value) : result value :=
  match a, b with
  | PyFloat x, PyFloat y => r <- pyf x y ;; Ok (PyFloat r)
  | PyFloat x, NpFloat y
  | NpFloat x, PyFloat y
  | NpFloat x, NpFloat y => Ok (NpFloat (f x y))
  | PyFloat x, NpArray ys
  | NpFloat x, NpArray ys => Ok (NpArray (map (f x) ys))
  | NpArray xs, PyFloat y
  | NpArray xs, NpFloat y => Ok (NpArray (map (fun x => f x y) xs))
  | NpArray xs, NpArray ys => zs <- broadcast f xs ys ;; Ok (NpArray zs)
  end.

Definition py_add (x y : float) : result float := Ok (x + y)%float.
Definition py_mul (x y : float) : result float := Ok (x * y)%float.

(** Built-in true division raises on a zero divisor (of either sign). *)
Definition py_div (x y : float) : result float :=
  if (y =? 0)%float then Raise ZeroDivisionError else Ok (x / y)%float.

Definition v_add : value -> value -> result value := v_binop PrimFloat.add py_add.
Definition v_mul : value -> value -> result value := v_binop PrimFloat.mul py_mul.
Definition v_div : value -> value -> result value := v_binop PrimFloat.div py_div.

(** [np.sqrt]: always a NumPy result, [nan] for a negative argument. *)
Definition np_sqrt (v : value) : value :=
  match v with
  | PyFloat x | NpFloat x => NpFloat (sqrt x)
  | NpArray xs => NpArray (map sqrt xs)
  end.

(** Operands of an expression are evaluated left to right, and the first
    exception wins. *)
Definition lift2 (op : value -> value -> result value)
  (ra rb : result value) : result value :=
  a <- ra ;; b <- rb ;; op a b.

(** Subscripting the object bound to a name that holds either [None] or a
    sequence. *)
Definition subscript (s : option (list value)) (i : nat) : result value :=
  match s with
  | None => Raise TypeError
  | Some l => match nth_error l i with
              | Some v => Ok v
              | None => Raise IndexError
              end
  end.

(** ** Dictionaries with string keys *)

Definition dict (V : Type) : Type := list (string * V).

Definition dict_set {V : Type} (d : dict V) (k : string) (v : V) : dict V :=
  filter (fun kv => negb (String.eqb (fst kv) k)) d ++ [(k, v)].

Fixpoint dict_get {V : Type} (d : dict V) (k : string) : result V :=
  match d with
  | [] => Raise (KeyError k)
  | (k', v) :: d' => if String.eqb k' k then Ok v else dict_get d' k
  end.

Definition is_None {A : Type} (o : option A) : bool :=
  match o with
  | None => true
  | Some _ => false
  end.

(** ** What the function calls but does not define

    The three [pvlib.atmosphere] functions and the two power operations are
    not part of the repository.  They enter as black boxes on binary64
    numbers: [relative_airmass], [pressure_from_altitude] and
    [absolute_airmass] (the names of the specification, section 6),
    [np_power] for a [**] with a NumPy operand, and [float_pow] for [**]
    between two built-in floats, which may raise. *)

Class Externals : Type := {
  relative_airmass : float -> float;
  pressure_from_altitude : float -> float;
  absolute_airmass : float -> float -> float;
  np_power : float -> float -> float;
  float_pow : float -> float -> result float
}.

(** CPython returns [1.0] for [1.0 ** y], whatever [y]. *)
Definition pow_of_one (E : Externals) : Prop :=
  forall y, float_pow 1 y = Ok 1%float.

Definition v_pow {E : Externals} : value -> value -> result value :=
  v_binop np_power float_pow.

(** [pvlib.atmosphere.get_relative_airmass] works through NumPy and
    returns a NumPy object also for a built-in float. *)
Definition get_relative_airmass {E : Externals} (zenith : value) : value :=
  match zenith with
  | PyFloat z | NpFloat z => NpFloat (relative_airmass z)
  | NpArray zs => NpArray (map relative_airmass zs)
  end.

(** [pvlib.atmosphere.alt2pres] is plain arithmetic: the kind is kept.
    The specification (section 6) takes it as a numeric function,
    [pressure_from_altitude], and so does this definition.  For a built-in
    altitude pvlib evaluates it with Python's own power, which raises
    [OverflowError] at altitudes of enormous magnitude and yields a complex
    number above 44331.514 m; such built-in altitudes are outside this
    model. *)
Definition alt2pres {E : Externals} (altitude : value) : value :=
  match altitude with
  | PyFloat h => PyFloat (pressure_from_altitude h)
  | NpFloat h => NpFloat (pressure_from_altitude h)
  | NpArray hs => NpArray (map pressure_from_altitude hs)
  end.

(** [pvlib.atmosphere.get_absolute_airmass] multiplies and divides by a
    non-zero constant: element-wise, broadcasting, never raising on
    scalars. *)
Definition get_absolute_airmass {E : Externals}
  (airmass_relative pressure : value) : result value :=
  v_binop absolute_airmass (fun a p => Ok (absolute_airmass a p))
    airmass_relative pressure.

Notation "a .+ b" := (lift2 v_add a b) (at level 50, left associativity) : py_scope.
Notation "a .* b" := (lift2 v_mul a b) (at level 40, left associativity) : py_scope.
Notation "a ./ b" := (lift2 v_div a b) (at level 40, left associativity) : py_scope.
Notation "a .** b" := (lift2 v_pow a b) (at level 30, right associativity) : py_scope.
Notation "s .[ i ]" := (subscript s i) (at level 1, left associativity,
  format "s .[ i ]") : py_scope.

(** ** The function (src/spectral_factor_polo.py, lines 7-104) *)

Definition spectral_factor_polo {E : Externals}
  (precipitable_water airmass_absolute aod500 aoi altitude : value)
  (module_type : option string) (coefficients : option (list value))
  (albedo : value) : result value :=
  if is_None module_type && is_None coefficients then
    Raise (ValueError "Must provide either `module_type` or `coefficients`")
  else if negb (is_None module_type) && negb (is_None coefficients) then
    Raise (ValueError "Only one of `module_type` and `coefficients` should be provided")
  else
    let am_aoi := get_relative_airmass aoi in
    let pressure := alt2pres altitude in
    am90 <- get_absolute_airmass am_aoi pressure ;;
    Ram <- v_div am90 airmass_absolute ;;
    let _coefficients := [] in
    let _coefficients := dict_set _coefficients "cdte"
      [PyFloat (-0.0009); PyFloat 46.80; PyFloat 49.20; PyFloat (-0.87);
       PyFloat 0.00041; PyFloat 0.053] in
    let _coefficients := dict_set _coefficients "monosi"
      [PyFloat 0.0027; PyFloat 10.34; PyFloat 9.48; PyFloat 0.307;
       PyFloat 0.00077; PyFloat 0.006] in
    let _coefficients := dict_set _coefficients "cigs"
      [PyFloat 0.0017; PyFloat 2.33; PyFloat 1.30; PyFloat 0.11;
       PyFloat 0.00098; PyFloat (-0.0177)] in
    let _coefficients := dict_set _coefficients "asi"
      [PyFloat 0.0024; PyFloat 7.32; PyFloat 7.09; PyFloat (-0.72);
       PyFloat (-0.0013); PyFloat 0.089] in
    let c := [] in
    let c := dict_set c "asi" [PyFloat 0.0056; PyFloat (-0.020); PyFloat 1.014] in
    let c := dict_set c "cigs" [PyFloat (-0.0009); PyFloat (-0.0003); PyFloat 1] in
    let c := dict_set c "cdte" [PyFloat 0.0021; PyFloat (-0.01); PyFloat 1.01] in
    let c := dict_set c "monosi" [PyFloat 0; PyFloat (-0.003); PyFloat 1.0] in
    sel <- match module_type with
           | Some key =>
               coeff <- dict_get _coefficients key ;;
               c_albedo <- dict_get c key ;;
               Ok (Some coeff, Some c_albedo, albedo)
           | None =>
               Ok (coefficients,
                   Some [PyFloat 0.0; PyFloat 0.0; PyFloat 1.0],
                   PyFloat 0.2)
           end ;;
    let '(coeff, c_albedo, albedo) := sel in
    smm <- coeff.[0] .* Ok Ram
           .+ coeff.[1] ./ (coeff.[2] .+ Ok Ram .** coeff.[3])
           .+ coeff.[4] ./ Ok aod500
           .+ coeff.[5] .* Ok (np_sqrt precipitable_water) ;;
    g <- c_albedo.[0] .* (Ok albedo ./ Ok (PyFloat 0.2)) .** Ok (PyFloat 2)
         .+ c_albedo.[1] .* (Ok albedo ./ Ok (PyFloat 0.2))
         .+ c_albedo.[2] ;;
    v_mul g smm.

(** ** The specification's reading of the function

    Section 4.1 of the specification describes the computation in eight
    steps.  The definitions below follow its words; the theorems compare
    them with [spectral_factor_polo]. *)

Inductive technology : Type := cdte | monosi | cigs | asi.

Definition key_of (t : technology) : string :=
  match t with
  | cdte => "cdte"
  | monosi => "monosi"
  | cigs => "cigs"
  | asi => "asi"
  end.

Definition known_key (k : string) : bool :=
  String.eqb k "cdte" || String.eqb k "monosi" || String.eqb k "cigs"
  || String.eqb k "asi".

(** Six coefficients of the mismatch expression, three of the albedo
    polynomial.  The specification names the two tables without listing
    them; their entries are those of lines 73-86 of the source. *)
Record six : Type := Six { c0 : value; c1 : value; c2 : value; c3 : value;
                           c4 : value; c5 : value }.
Record three : Type := Three { b0 : value; b1 : value; b2 : value }.

Definition six_of (x0 x1 x2 x3 x4 x5 : float) : six :=
  Six (PyFloat x0) (PyFloat x1) (PyFloat x2) (PyFloat x3) (PyFloat x4) (PyFloat x5).
Definition three_of (x0 x1 x2 : float) : three :=
  Three (PyFloat x0) (PyFloat x1) (PyFloat x2).

Definition table_A (t : technology) : six :=
  match t with
  | cdte => six_of (-0.0009) 46.80 49.20 (-0.87) 0.00041 0.053
  | monosi => six_of 0.0027 10.34 9.48 0.307 0.00077 0.006
  | cigs => six_of 0.0017 2.33 1.30 0.11 0.00098 (-0.0177)
  | asi => six_of 0.0024 7.32 7.09 (-0.72) (-0.0013) 0.089
  end.

Definition table_B (t : technology) : three :=
  match t with
  | asi => three_of 0.0056 (-0.020) 1.014
  | cigs => three_of (-0.0009) (-0.0003) 1
  | cdte => three_of 0.0021 (-0.01) 1.01
  | monosi => three_of 0 (-0.003) 1.0
  end.

Definition neutral : three := three_of 0 0 1.

Definition as_list (k : six) : list value :=
  [c0 k; c1 k; c2 k; c3 k; c4 k; c5 k].

(** Steps 1-4: the airmass ratio, as the code computes it. *)
Definition airmass_ratio {E : Externals} (aoi altitude airmass_absolute : value)
  : result value :=
  am90 <- get_absolute_airmass (get_relative_airmass aoi) (alt2pres altitude) ;;
  v_div am90 airmass_absolute.

(** Steps 3-4 as the specification words them: the absolute airmass "at a
    fixed reference angle (90 degrees)". *)
Definition airmass_ratio_at_90 {E : Externals} (altitude airmass_absolute : value)
  : result value :=
  am90 <- get_absolute_airmass (get_relative_airmass (PyFloat 90)) (alt2pres altitude) ;;
  v_div am90 airmass_absolute.

(** Step 6: [smm = c0*Ram + c1/(c2 + Ram**c3) + c4/aod500 + c5*sqrt(pw)]. *)
Definition mismatch {E : Externals} (k : six) (Ram aod500 precipitable_water : value)
  : result value :=
  Ok (c0 k) .* Ok Ram
  .+ Ok (c1 k) ./ (Ok (c2 k) .+ Ok Ram .** Ok (c3 k))
  .+ Ok (c4 k) ./ Ok aod500
  .+ Ok (c5 k) .* Ok (np_sqrt precipitable_water).

(** Step 7: [g = b0*(albedo/0.2)^2 + b1*(albedo/0.2) + b2]. *)
Definition albedo_correction {E : Externals} (b : three) (albedo : value)
  : result value :=
  Ok (b0 b) .* (Ok albedo ./ Ok (PyFloat 0.2)) .** Ok (PyFloat 2)
  .+ Ok (b1 b) .* (Ok albedo ./ Ok (PyFloat 0.2))
  .+ Ok (b2 b).

(** Steps 6-8 on NumPy scalars, where no operation can raise. *)
Definition smm_float {E : Externals} (k : six) (Ram aod500 pw : float) : float :=
  (to_float (c0 k) * Ram
   + to_float (c1 k) / (to_float (c2 k) + np_power Ram (to_float (c3 k)))
   + to_float (c4 k) / aod500
   + to_float (c5 k) * sqrt pw)%float.

Definition g_float {E : Externals} (b : three) (albedo : float) : float :=
  (to_float (b0 b) * np_power (albedo / 0.2) 2
   + to_float (b1 b) * (albedo / 0.2)
   + to_float (b2 b))%float.

Definition Ram_float {E : Externals} (aoi altitude airmass_absolute : float) : float :=
  (absolute_airmass (relative_airmass aoi) (pressure_from_altitude altitude)
   / airmass_absolute)%float.

(** The sum of the three entries of an albedo triple, left to right. *)
Definition sum_three (b : three) : float :=
  (to_float (b0 b) + to_float (b1 b) + to_float (b2 b))%float.

(** Step 5: how the two optional arguments select the coefficients, the
    albedo triple and the albedo that is used. *)
Inductive resolves : option string -> option (list value) -> value ->
                     six -> three -> value -> Prop :=
| by_module_type (t : technology) (albedo : value) :
    resolves (Some (key_of t)) None albedo (table_A t) (table_B t) albedo
| by_coefficients (k : six) (rest : list value) (albedo : value) :
    resolves None (Some (as_list k ++ rest)) albedo k neutral (PyFloat 0.2).

Definition scalars (k : six) : Prop :=
  is_array (c0 k) = false /\ is_array (c1 k) = false /\ is_array (c2 k) = false /\
  is_array (c3 k) = false /\ is_array (c4 k) = false /\ is_array (c5 k) = false.

Definition scalars3 (b : three) : Prop :=
  is_array (b0 b) = false /\ is_array (b1 b) = false /\ is_array (b2 b) = false.

(** Steps 6-8 on scalars, from the numbers carried: [t3] is the value of
    [c4/aod500] and [gv] that of the albedo polynomial. *)
Definition smm_with {E : Externals} (k : six) (Ram t3 pw : float) : float :=
  (to_float (c0 k) * Ram
   + to_float (c1 k) / (to_float (c2 k) + np_power Ram (to_float (c3 k)))
   + t3
   + to_float (c5 k) * sqrt pw)%float.

Definition finish {E : Externals} (k : six) (Ram t3 pw gv : float) : float :=
  (gv * smm_with k Ram t3 pw)%float.

Definition is_numpy (v : value) : bool :=
  match v with
  | PyFloat _ => false
  | _ => true
  end.

(** ** Reading a possibly array-valued argument at one position *)

Definition elem (i : nat) (v : value) : value :=
  match v with
  | NpArray xs => NpFloat (nth i xs nan)
  | _ => v
  end.

(** [conforms n v]: [v] is a scalar or an array of length [n]. *)
Definition conforms (n : nat) (v : value) : Prop :=
  match v with
  | NpArray xs => length xs = n
  | _ => True
  end.

(** The array call [r] and the scalar calls [rs 0 .. rs (n-1)] agree: both
    raise the same exception, or [r] holds at each position what the scalar
    call returns there. *)
Definition elementwise (n : nat) (r : result value) (rs : nat -> result value) : Prop :=
  match r with
  | Ok v => conforms n v /\ forall i, i < n -> rs i = Ok (elem i v)
  | Raise e => forall i, i < n -> rs i = Raise e
  end.

(** ** Classifying numbers *)

Definition nonfinite (x : float) : bool :=
  match Prim2SF x with
  | S754_infinity _ | S754_nan => true
  | _ => false
  end.

Definition negative (x : float) : bool := (x <? 0)%float.

(** A built-in zero, the divisor on which built-in division raises. *)
Definition python_zero (v : value) : bool :=
  match v with
  | PyFloat x => (x =? 0)%float
  | _ => false
  end.

(** ** A small environment for closed examples

    Arithmetic stand-ins for the black boxes: a relative airmass that grows
    from 1 at the zenith to about 39 at the horizon, a linear barometric
    pressure, pvlib's own pressure correction, and a power that is right
    at the exponents 0, 1 and 2 only.  No general theorem depends on
    them. *)

Definition toy_power (x y : float) : float :=
  if (y =? 2)%float then (x * x)%float
  else if (y =? 1)%float then x
  else 1%float.

Definition toy : Externals := {|
  relative_airmass := fun z => (8314 / (8314 - z * z))%float;
  pressure_from_altitude := fun h => (101325 - 12 * h)%float;
  absolute_airmass := fun a p => (a * p / 101325)%float;
  np_power := toy_power;
  float_pow := fun x y => Ok (toy_power x y)
|}.

(** * Properties *)

(** ** Facts about binary64 arithmetic *)

Section FloatFacts.

Lemma digits2_pos_shift52 (m : positive) :
  Z.pos (digits2_pos (4503599627370496 * m)) = (Z.pos (digits2_pos m) + 52)%Z.
Proof.
  cbn [Pos.mul digits2_pos].
  rewrite !Pos2Z.inj_succ. lia.
Qed.

(** Multiplying a representable number by one rounds to itself. *)
Lemma SF64mul_one_l (x : spec_float) :
  valid_binary x = true ->
  SF64mul (S754_finite false 4503599627370496 (-52)) x = x.
Proof.
  destruct x as [s|s| |s m e]; try reflexivity.
  intros Hv. unfold SpecFloat.valid_binary, bounded, canonical_mantissa in Hv.
  apply andb_prop in Hv as [Hc He].
  apply Z.eqb_eq in Hc.
  unfold SF64mul, SFmul, binary_round_aux.
  assert (H1 : shr_fexp prec emax (Z.pos (4503599627370496 * m)) (-52 + e) loc_Exact
               = ({| shr_m := Z.pos m; shr_r := false; shr_s := false |}, e)).
  { unfold shr_fexp, Zdigits2. rewrite digits2_pos_shift52.
    replace (Z.pos (digits2_pos m) + 52 + (-52 + e))%Z
      with (Z.pos (digits2_pos m) + e)%Z by lia.
    rewrite Hc. replace (e - (-52 + e))%Z with 52%Z by lia.
    unfold shr. replace (-52 + e + 52)%Z with e by lia.
    f_equal. }
  rewrite H1. cbn [shr_m loc_of_shr_record round_nearest_even].
  assert (H2 : shr_fexp prec emax (Z.pos m) e loc_Exact
               = ({| shr_m := Z.pos m; shr_r := false; shr_s := false |}, e)).
  { unfold shr_fexp, Zdigits2. rewrite Hc, Z.sub_diag. reflexivity. }
  rewrite H2. cbn [shr_m]. rewrite He. destruct s; reflexivity.
Qed.

Lemma mul_1_l (x : float) : (1 * x)%float = x.
Proof.
  apply Prim2SF_inj. rewrite mul_spec.
  change (Prim2SF 1%float) with (S754_finite false 4503599627370496 (-52)).
  apply SF64mul_one_l, Prim2SF_valid.
Qed.

Lemma nonfinite_add_l x y : nonfinite x = true -> nonfinite (x + y) = true.
Proof.
  unfold nonfinite. rewrite add_spec.
  destruct (Prim2SF x) as [s|s| |s m e]; try discriminate; intros _;
    destruct (Prim2SF y) as [s'|s'| |s' m' e']; cbn; try reflexivity.
  destruct s, s'; reflexivity.
Qed.

Lemma nonfinite_add_r x y : nonfinite y = true -> nonfinite (x + y) = true.
Proof.
  unfold nonfinite. rewrite add_spec.
  destruct (Prim2SF y) as [s|s| |s m e]; try discriminate; intros _;
    destruct (Prim2SF x) as [s'|s'| |s' m' e']; cbn; try reflexivity.
  destruct s, s'; reflexivity.
Qed.

Lemma nonfinite_mul_r x y : nonfinite y = true -> nonfinite (x * y) = true.
Proof.
  unfold nonfinite. rewrite mul_spec.
  destruct (Prim2SF y) as [s|s| |s m e]; try discriminate; intros _;
    destruct (Prim2SF x) as [s'|s'| |s' m' e']; reflexivity.
Qed.

Lemma eqb_zero_inv z : (z =? 0)%float = true -> exists s, Prim2SF z = S754_zero s.
Proof.
  rewrite FloatAxioms.eqb_spec. change (Prim2SF 0) with (S754_zero false).
  destruct (Prim2SF z) as [s|s| |s m e]; try (now exists s); cbn; try discriminate.
  - destruct s; discriminate.
  - destruct s; discriminate.
Qed.

(** Anything divided by a zero is an infinity or not a number. *)
Lemma nonfinite_div_zero x z : (z =? 0)%float = true -> nonfinite (x / z) = true.
Proof.
  intros [s Hz]%eqb_zero_inv. unfold nonfinite. rewrite div_spec, Hz.
  destruct (Prim2SF x); reflexivity.
Qed.

Lemma sqrt_negative x : negative x = true -> sqrt x = nan.
Proof.
  unfold negative. rewrite FloatAxioms.ltb_spec.
  change (Prim2SF 0) with (S754_zero false).
  intros H. apply Prim2SF_inj. rewrite sqrt_spec.
  change (Prim2SF nan) with S754_nan.
  destruct (Prim2SF x) as [s|s| |s m e]; cbn in H; try discriminate.
  - destruct s; [reflexivity | discriminate].
  - destruct s; [reflexivity | discriminate].
Qed.

Lemma mul_nan_r x : (x * nan)%float = nan.
Proof.
  apply Prim2SF_inj. rewrite mul_spec. change (Prim2SF nan) with S754_nan.
  destruct (Prim2SF x); reflexivity.
Qed.

Lemma add_nan_r x : (x + nan)%float = nan.
Proof.
  apply Prim2SF_inj. rewrite add_spec. change (Prim2SF nan) with S754_nan.
  destruct (Prim2SF x); reflexivity.
Qed.

End FloatFacts.

(** ** The function against the eight steps *)

Section Steps.

Context {E : Externals}.

Variables precipitable_water airmass_absolute aod500 aoi altitude albedo : value.

(** With a known module type the tables are looked up and the albedo is
    the caller's. *)
Lemma polo_by_module_type (t : technology) :
  spectral_factor_polo precipitable_water airmass_absolute aod500 aoi altitude
    (Some (key_of t)) None albedo
  = (Ram <- airmass_ratio aoi altitude airmass_absolute ;;
     smm <- mismatch (table_A t) Ram aod500 precipitable_water ;;
     g <- albedo_correction (table_B t) albedo ;;
     v_mul g smm).
Proof.
  unfold spectral_factor_polo, airmass_ratio.
  destruct t; cbn [key_of is_None andb negb];
    (destruct (get_absolute_airmass _ _) as [am90|e]; [ | reflexivity ]);
    (destruct (v_div am90 airmass_absolute) as [r|e]; reflexivity).
Qed.

(** With six or more explicit coefficients the first six are used, with
    the neutral triple and an albedo of 0.2. *)
Lemma polo_by_coefficients (k : six) (rest : list value) :
  spectral_factor_polo precipitable_water airmass_absolute aod500 aoi altitude
    None (Some (as_list k ++ rest)) albedo
  = (Ram <- airmass_ratio aoi altitude airmass_absolute ;;
     smm <- mismatch k Ram aod500 precipitable_water ;;
     g <- albedo_correction neutral (PyFloat 0.2) ;;
     v_mul g smm).
Proof.
  unfold spectral_factor_polo, airmass_ratio. cbn [is_None andb negb].
  destruct (get_absolute_airmass _ _) as [am90|e]; [ | reflexivity ].
  destruct (v_div am90 airmass_absolute) as [r|e]; reflexivity.
Qed.

End Steps.

(** ** Operators on scalars and arrays *)

Section Operators.

Variable f : float -> float -> float.
Variable pyf : float -> float -> result float.

Lemma binop_np_l x b :
  is_array b = false ->
  v_binop f pyf (NpFloat x) b = Ok (NpFloat (f x (to_float b))).
Proof. destruct b; [reflexivity | reflexivity | discriminate]. Qed.

Lemma binop_np_r a y :
  is_array a = false ->
  v_binop f pyf a (NpFloat y) = Ok (NpFloat (f (to_float a) y)).
Proof. destruct a; [reflexivity | reflexivity | discriminate]. Qed.

Lemma binop_arr_l (g : float -> float) xs b :
  is_array b = false ->
  v_binop f pyf (NpArray (map g xs)) b
  = Ok (NpArray (map (fun x => f (g x) (to_float b)) xs)).
Proof.
  destruct b; try discriminate; intros _; cbn; now rewrite map_map.
Qed.

Lemma binop_arr_r (g : float -> float) xs a :
  is_array a = false ->
  v_binop f pyf a (NpArray (map g xs))
  = Ok (NpArray (map (fun x => f (to_float a) (g x)) xs)).
Proof.
  destruct a; try discriminate; intros _; cbn; now rewrite map_map.
Qed.

Lemma map2_map (g h : float -> float) xs :
  map2 f (map g xs) (map h xs) = map (fun x => f (g x) (h x)) xs.
Proof.
  induction xs as [|x xs IH]; cbn; [reflexivity | now rewrite IH].
Qed.

Lemma binop_arr_arr (g h : float -> float) xs :
  v_binop f pyf (NpArray (map g xs)) (NpArray (map h xs))
  = Ok (NpArray (map (fun x => f (g x) (h x)) xs)).
Proof.
  cbn. unfold broadcast. rewrite !length_map, Nat.eqb_refl. cbn.
  now rewrite map2_map.
Qed.

(** Two scalars give a scalar, when they give anything. *)
Lemma binop_scalar a b c :
  is_array a = false -> is_array b = false ->
  v_binop f pyf a b = Ok c -> is_array c = false.
Proof.
  destruct a, b; try discriminate; intros _ _; cbn.
  - destruct (pyf x x0); cbn; intros [= <-] || discriminate; reflexivity.
  - intros [= <-]; reflexivity.
  - intros [= <-]; reflexivity.
  - intros [= <-]; reflexivity.
Qed.

Lemma length_map2 (xs ys : list float) :
  length xs = length ys -> length (map2 f xs ys) = length xs.
Proof.
  revert ys; induction xs as [|x xs IH]; intros [|y ys]; cbn; try discriminate;
    [reflexivity | intros [= H]; now rewrite IH].
Qed.

Lemma nth_map2 (xs ys : list float) i d :
  length xs = length ys -> i < length xs ->
  nth i (map2 f xs ys) d = f (nth i xs d) (nth i ys d).
Proof.
  revert ys i; induction xs as [|x xs IH]; intros [|y ys] [|i]; cbn;
    try discriminate; try lia; [reflexivity | intros [= H] Hi; apply IH; [assumption | lia]].
Qed.

(** With element-aligned operands an operator can only raise where two
    built-in floats meet. *)
Lemma binop_defined n a b :
  conforms n a -> conforms n b ->
  (forall x y, a = PyFloat x -> b = PyFloat y -> exists r, pyf x y = Ok r) ->
  exists c, v_binop f pyf a b = Ok c /\ conforms n c
            /\ is_numpy c = is_numpy a || is_numpy b.
Proof.
  intros Ha Hb Hpy. destruct a as [x|x|xs], b as [y|y|ys]; cbn in *.
  - destruct (Hpy x y eq_refl eq_refl) as [r ->]. now exists (PyFloat r).
  - now eexists.
  - eexists; repeat split. cbn. now rewrite length_map.
  - now eexists.
  - now eexists.
  - eexists; repeat split. cbn. now rewrite length_map.
  - eexists; repeat split. cbn. now rewrite length_map.
  - eexists; repeat split. cbn. now rewrite length_map.
  - unfold broadcast. replace (length xs =? length ys)%nat with true
      by (symmetry; apply Nat.eqb_eq; congruence).
    eexists; repeat split. cbn. rewrite length_map2; congruence.
Qed.

End Operators.

(** ** Evaluating the steps on scalars and on an array of airmasses *)

Section Evaluation.

Context {E : Externals}.

Lemma np_sqrt_scalar pw :
  is_array pw = false -> np_sqrt pw = NpFloat (sqrt (to_float pw)).
Proof. destruct pw; [reflexivity | reflexivity | discriminate]. Qed.

Lemma v_div_builtin_zero x b :
  python_zero b = true -> v_div (PyFloat x) b = Raise ZeroDivisionError.
Proof.
  destruct b as [y|y|ys]; try discriminate; cbn. unfold py_div. now intros ->.
Qed.

Lemma v_div_numpy_zero a z :
  is_array a = false ->
  v_div a (NpFloat z) = Ok (NpFloat (to_float a / z)).
Proof. apply binop_np_r. Qed.

(** The airmass ratio of scalars is a NumPy scalar, whatever their kinds. *)
Lemma airmass_ratio_scalar aoi altitude airmass_absolute :
  is_array aoi = false -> is_array altitude = false ->
  is_array airmass_absolute = false ->
  airmass_ratio aoi altitude airmass_absolute
  = Ok (NpFloat (Ram_float (to_float aoi) (to_float altitude)
                   (to_float airmass_absolute))).
Proof.
  destruct aoi, altitude, airmass_absolute; try discriminate; reflexivity.
Qed.

Lemma airmass_ratio_array aoi altitude xs :
  is_array aoi = false -> is_array altitude = false ->
  airmass_ratio aoi altitude (NpArray xs)
  = Ok (NpArray (map (Ram_float (to_float aoi) (to_float altitude)) xs)).
Proof.
  destruct aoi, altitude; try discriminate; reflexivity.
Qed.

Ltac step_scalar :=
  first [ rewrite binop_np_l by first [assumption | reflexivity]
        | rewrite binop_np_r by first [assumption | reflexivity] ];
  cbn [bind].

Lemma mismatch_scalar k r aod500 pw :
  scalars k -> is_array aod500 = false -> is_array pw = false ->
  mismatch k (NpFloat r) aod500 pw
  = (t3 <- v_div (c4 k) aod500 ;;
     Ok (NpFloat (smm_with k r (to_float t3) (to_float pw)))).
Proof.
  intros (H0 & H1 & H2 & H3 & H4 & H5) Ha Hp.
  unfold mismatch, lift2. cbn [bind]. rewrite (np_sqrt_scalar pw Hp).
  destruct (v_div (c4 k) aod500) as [t3|e] eqn:Ht3;
    [ pose proof (binop_scalar _ _ _ _ _ H4 Ha Ht3) as Hs | ];
    unfold v_mul, v_add, v_pow, v_div; repeat step_scalar; reflexivity.
Qed.

Ltac step_array :=
  first [ rewrite binop_arr_arr
        | rewrite binop_arr_l by first [assumption | reflexivity]
        | rewrite binop_arr_r by first [assumption | reflexivity] ];
  cbn [bind].

Lemma mismatch_array k (h : float -> float) xs aod500 pw :
  scalars k -> is_array aod500 = false -> is_array pw = false ->
  mismatch k (NpArray (map h xs)) aod500 pw
  = (t3 <- v_div (c4 k) aod500 ;;
     Ok (NpArray (map (fun x => smm_with k (h x) (to_float t3) (to_float pw)) xs))).
Proof.
  intros (H0 & H1 & H2 & H3 & H4 & H5) Ha Hp.
  unfold mismatch, lift2. cbn [bind]. rewrite (np_sqrt_scalar pw Hp).
  destruct (v_div (c4 k) aod500) as [t3|e] eqn:Ht3;
    [ pose proof (binop_scalar _ _ _ _ _ H4 Ha Ht3) as Hs | ];
    unfold v_mul, v_add, v_pow, v_div;
    repeat first [ step_array | step_scalar ]; reflexivity.
Qed.

Lemma scalars_table_A t : scalars (table_A t).
Proof. destruct t; repeat split. Qed.

Lemma scalars3_table_B t : scalars3 (table_B t).
Proof. destruct t; repeat split. Qed.

(** The albedo polynomial of a scalar albedo is a scalar. *)
Lemma albedo_scalar b albedo gv :
  scalars3 b -> is_array albedo = false ->
  albedo_correction b albedo = Ok gv -> is_array gv = false.
Proof.
  intros (Hb0 & Hb1 & Hb2) Ha.
  unfold albedo_correction, lift2. cbn [bind].
  destruct (v_div albedo (PyFloat 0.2)) as [x|e] eqn:Hx; cbn [bind]; [ | discriminate ].
  pose proof (binop_scalar _ _ _ (PyFloat 0.2) _ Ha eq_refl Hx) as Hsx.
  destruct (v_pow x (PyFloat 2)) as [x2|e] eqn:Hx2; cbn [bind]; [ | discriminate ].
  pose proof (binop_scalar _ _ _ (PyFloat 2) _ Hsx eq_refl Hx2) as Hsx2.
  destruct (v_mul (b0 b) x2) as [u1|e] eqn:Hu1; cbn [bind]; [ | discriminate ].
  pose proof (binop_scalar _ _ _ _ _ Hb0 Hsx2 Hu1) as Hsu1.
  destruct (v_mul (b1 b) x) as [u2|e] eqn:Hu2; cbn [bind]; [ | discriminate ].
  pose proof (binop_scalar _ _ _ _ _ Hb1 Hsx Hu2) as Hsu2.
  destruct (v_add u1 u2) as [w|e] eqn:Hw; cbn [bind]; [ | discriminate ].
  pose proof (binop_scalar _ _ _ _ _ Hsu1 Hsu2 Hw) as Hsw.
  intros Hg. exact (binop_scalar _ _ _ _ _ Hsw Hb2 Hg).
Qed.

(** On a NumPy scalar the polynomial cannot raise. *)
Lemma albedo_numpy b a :
  scalars3 b ->
  albedo_correction b (NpFloat a) = Ok (NpFloat (g_float b a)).
Proof.
  intros (Hb0 & Hb1 & Hb2).
  unfold albedo_correction, lift2, v_mul, v_add, v_pow, v_div. cbn [bind].
  repeat step_scalar. reflexivity.
Qed.

(** With the neutral triple and an albedo of 0.2 the polynomial is 1. *)
Lemma albedo_neutral : pow_of_one E ->
  albedo_correction neutral (PyFloat 0.2) = Ok (PyFloat 1).
Proof.
  intros H1. unfold albedo_correction, lift2. cbn.
  change (0.2 / 0.2)%float with 1%float. rewrite H1. reflexivity.
Qed.

Lemma map_mul_1 xs : map (PrimFloat.mul 1) xs = xs.
Proof.
  induction xs as [|x xs IH]; cbn; [reflexivity | now rewrite mul_1_l, IH].
Qed.

Lemma v_mul_one_l v : v_mul (PyFloat 1) v = Ok v.
Proof.
  destruct v as [x|x|xs]; cbn; unfold py_mul; cbn;
    rewrite ?mul_1_l, ?map_mul_1; reflexivity.
Qed.

Lemma polo_resolved pw am aod500 aoi altitude mt cs albedo k b albedo' :
  resolves mt cs albedo k b albedo' ->
  spectral_factor_polo pw am aod500 aoi altitude mt cs albedo
  = (Ram <- airmass_ratio aoi altitude am ;;
     smm <- mismatch k Ram aod500 pw ;;
     g <- albedo_correction b albedo' ;;
     v_mul g smm).
Proof.
  intros [t a|k' rest a]; [apply polo_by_module_type | apply polo_by_coefficients].
Qed.

Lemma resolves_scalar mt cs albedo k b albedo' :
  resolves mt cs albedo k b albedo' -> is_array albedo = false ->
  scalars3 b /\ is_array albedo' = false.
Proof.
  intros [t a|k' rest a] Ha; split;
    [apply scalars3_table_B | assumption | repeat split | reflexivity].
Qed.

(** A call on scalars, reduced to the two steps that can raise. *)
Lemma polo_scalar pw am aod500 aoi altitude mt cs albedo k b albedo' :
  resolves mt cs albedo k b albedo' -> scalars k ->
  is_array pw = false -> is_array am = false -> is_array aod500 = false ->
  is_array aoi = false -> is_array altitude = false -> is_array albedo = false ->
  spectral_factor_polo pw am aod500 aoi altitude mt cs albedo
  = (t3 <- v_div (c4 k) aod500 ;;
     gv <- albedo_correction b albedo' ;;
     Ok (NpFloat (finish k (Ram_float (to_float aoi) (to_float altitude) (to_float am))
                    (to_float t3) (to_float pw) (to_float gv)))).
Proof.
  intros Hr Hk Hpw Ham Haod Haoi Halt Halb.
  destruct (resolves_scalar _ _ _ _ _ _ Hr Halb) as [Hb Halb'].
  rewrite (polo_resolved _ _ _ _ _ _ _ _ _ _ _ Hr).
  rewrite airmass_ratio_scalar by assumption. cbn [bind].
  rewrite mismatch_scalar by assumption.
  destruct (v_div (c4 k) aod500) as [t3|e]; cbn [bind]; [ | reflexivity ].
  destruct (albedo_correction b albedo') as [gv|e] eqn:Hg; cbn [bind]; [ | reflexivity ].
  unfold v_mul. rewrite binop_np_r by exact (albedo_scalar _ _ _ Hb Halb' Hg).
  reflexivity.
Qed.

(** The same call with an array of absolute airmasses. *)
Lemma polo_airmass_array pw xs aod500 aoi altitude mt cs albedo k b albedo' :
  resolves mt cs albedo k b albedo' -> scalars k ->
  is_array pw = false -> is_array aod500 = false ->
  is_array aoi = false -> is_array altitude = false -> is_array albedo = false ->
  spectral_factor_polo pw (NpArray xs) aod500 aoi altitude mt cs albedo
  = (t3 <- v_div (c4 k) aod500 ;;
     gv <- albedo_correction b albedo' ;;
     Ok (NpArray (map (fun x =>
           finish k (Ram_float (to_float aoi) (to_float altitude) x)
             (to_float t3) (to_float pw) (to_float gv)) xs))).
Proof.
  intros Hr Hk Hpw Haod Haoi Halt Halb.
  destruct (resolves_scalar _ _ _ _ _ _ Hr Halb) as [Hb Halb'].
  rewrite (polo_resolved _ _ _ _ _ _ _ _ _ _ _ Hr).
  rewrite airmass_ratio_array by assumption. cbn [bind].
  rewrite mismatch_array by assumption.
  destruct (v_div (c4 k) aod500) as [t3|e]; cbn [bind]; [ | reflexivity ].
  destruct (albedo_correction b albedo') as [gv|e] eqn:Hg; cbn [bind]; [ | reflexivity ].
  unfold v_mul. rewrite binop_arr_r by exact (albedo_scalar _ _ _ Hb Halb' Hg).
  reflexivity.
Qed.

End Evaluation.

(** ** The argument check and the table lookup *)

Lemma toy_pow_of_one : pow_of_one toy.
Proof.
  intros y. cbn. unfold toy_power.
  destruct (y =? 2)%float; [reflexivity | ].
  destruct (y =? 1)%float; reflexivity.
Qed.

Lemma dict_get_absent {V : Type} (d : dict V) (key : string) :
  (forall k, In k (map fst d) -> String.eqb k key = false) ->
  dict_get d key = Raise (KeyError key).
Proof.
  induction d as [|[k v] d IH]; cbn; intros H; [reflexivity | ].
  rewrite (H k) by now left. apply IH. intros k' Hk'. apply H. now right.
Qed.

Lemma known_key_false key k :
  known_key key = false ->
  In k ["cdte"; "monosi"; "cigs"; "asi"]%string -> String.eqb k key = false.
Proof.
  unfold known_key. rewrite !orb_false_iff. intros [[[H1 H2] H3] H4].
  cbn. intros [<-|[<-|[<-|[<-|[]]]]]; now rewrite String.eqb_sym.
Qed.

Lemma airmass_ratio_defined {E : Externals} n aoi altitude airmass_absolute :
  conforms n aoi -> conforms n altitude -> conforms n airmass_absolute ->
  exists Ram, airmass_ratio aoi altitude airmass_absolute = Ok Ram
              /\ conforms n Ram /\ is_numpy Ram = true.
Proof.
  intros Ha Hh Hm. unfold airmass_ratio, get_absolute_airmass.
  destruct (binop_defined absolute_airmass (fun a p => Ok (absolute_airmass a p))
              n (get_relative_airmass aoi) (alt2pres altitude))
    as (am90 & -> & Hc & Hn).
  - destruct aoi; cbn in *; [exact I | exact I | now rewrite length_map].
  - destruct altitude; cbn in *; [exact I | exact I | now rewrite length_map].
  - intros x y _ _. now eexists.
  - cbn [bind]. unfold v_div.
    destruct (binop_defined PrimFloat.div py_div n am90 airmass_absolute)
      as (Ram & -> & Hc' & Hn'); try assumption.
    + intros x y -> _. destruct aoi; discriminate.
    + exists Ram. repeat split; [assumption | ].
      rewrite Hn', Hn. now destruct aoi.
Qed.

(** C6: supplying both [module_type] and [coefficients], or neither, raises
    the [ValueError] of the argument check.  Nothing else of the call
    matters: the equation holds for every input, every key (known or not),
    every coefficient sequence and every behaviour of the external
    functions, which are therefore not consulted. *)
Theorem C6_argument_check :
  forall (E : Externals) (pw am aod500 aoi altitude albedo : value)
         (key : string) (cs : list value),
    spectral_factor_polo pw am aod500 aoi altitude (Some key) (Some cs) albedo
    = Raise (ValueError
        "Only one of `module_type` and `coefficients` should be provided")
    /\ spectral_factor_polo pw am aod500 aoi altitude None None albedo
       = Raise (ValueError "Must provide either `module_type` or `coefficients`").
Proof.
  intros. split; reflexivity.
Qed.

(** Past the argument check, an unknown key leaves only exceptions. *)
Lemma polo_unknown_key {E : Externals} pw am aod500 aoi altitude albedo key :
  known_key key = false ->
  spectral_factor_polo pw am aod500 aoi altitude (Some key) None albedo
  = (Ram <- airmass_ratio aoi altitude am ;; Raise (KeyError key)).
Proof.
  intros Hkey. unfold spectral_factor_polo, airmass_ratio.
  cbn [is_None andb negb].
  destruct (get_absolute_airmass _ _) as [am90|e]; [ | reflexivity ].
  cbn [bind]. destruct (v_div am90 am) as [Ram|e]; [ | reflexivity ].
  cbn [bind].
  match goal with
  | |- context [dict_get ?d key] =>
      rewrite (dict_get_absent d key); [reflexivity | ]
  end.
  intros k Hk. apply (known_key_false key k Hkey). exact Hk.
Qed.

(** C7: a [module_type] that is none of the four keys (and no
    coefficients) never lets the call return a value; with element-aligned
    inputs the exception raised is [KeyError] (a [LookupError]) for that
    key. *)
Theorem C7_unknown_module_type :
  forall (E : Externals) (pw am aod500 aoi altitude albedo : value)
         (key : string),
    known_key key = false ->
    (forall v,
       spectral_factor_polo pw am aod500 aoi altitude (Some key) None albedo
       <> Ok v)
    /\ (forall n, conforms n aoi -> conforms n altitude -> conforms n am ->
         spectral_factor_polo pw am aod500 aoi altitude (Some key) None albedo
         = Raise (KeyError key)).
Proof.
  intros E pw am aod500 aoi altitude albedo key Hkey.
  rewrite (polo_unknown_key _ _ _ _ _ _ _ Hkey). split.
  - intros v. destruct (airmass_ratio aoi altitude am); discriminate.
  - intros n Ha Hh Hm.
    destruct (airmass_ratio_defined n aoi altitude am Ha Hh Hm) as (Ram & -> & _ & _).
    reflexivity.
Qed.

Lemma C7_witness :
  known_key "unknown" = false
  /\ spectral_factor_polo (E := toy) (PyFloat 1.42) (PyFloat 1.5) (PyFloat 0.2)
       (PyFloat 30) (PyFloat 0) (Some "unknown"%string) None (PyFloat 0.2)
     = Raise (KeyError "unknown").
Proof.
  split; [reflexivity | ].
  apply (proj2 (C7_unknown_module_type toy (PyFloat 1.42) (PyFloat 1.5)
                  (PyFloat 0.2) (PyFloat 30) (PyFloat 0) (PyFloat 0.2)
                  "unknown" eq_refl) 1); exact I.
Defined.

(** ** The formula *)

(** C1: with one of the four module types (and no coefficients) the call
    evaluates the airmass ratio, then
    [smm = c0*Ram + c1/(c2 + Ram**c3) + c4/aod500 + c5*sqrt(pw)] with the
    six table-A entries of that type in that order, then
    [g = b0*(albedo/0.2)**2 + b1*(albedo/0.2) + b2] with its three table-B
    entries, and returns [g * smm]; on NumPy scalars, where nothing can
    raise, the value returned is that product in binary64 arithmetic. *)
Theorem C1_modifier_is_g_times_smm :
  forall (E : Externals) (t : technology)
         (pw am aod500 aoi altitude albedo : value),
    spectral_factor_polo pw am aod500 aoi altitude (Some (key_of t)) None albedo
    = (Ram <- airmass_ratio aoi altitude am ;;
       smm <- mismatch (table_A t) Ram aod500 pw ;;
       g <- albedo_correction (table_B t) albedo ;;
       v_mul g smm)
    /\ forall p a d z h al : float,
        spectral_factor_polo (NpFloat p) (NpFloat a) (NpFloat d) (NpFloat z)
          (NpFloat h) (Some (key_of t)) None (NpFloat al)
        = Ok (NpFloat (g_float (table_B t) al
                       * smm_float (table_A t) (Ram_float z h a) d p)).
Proof.
  intros E t pw am aod500 aoi altitude albedo. split.
  - apply polo_by_module_type.
  - intros p a d z h al.
    rewrite (polo_scalar _ _ _ _ _ _ _ _ _ _ _ (by_module_type t (NpFloat al))
               (scalars_table_A t)) by reflexivity.
    rewrite v_div_numpy_zero by apply scalars_table_A. cbn [bind].
    rewrite albedo_numpy by apply scalars3_table_B. reflexivity.
Qed.

(** C2 (as amended): the airmass ratio used in the mismatch expression is
    [Ram = am90 / airmass_absolute], the caller's absolute airmass being
    the denominator, where [am90] is the absolute airmass obtained from the
    relative airmass at the caller's angle of incidence [aoi] (no fixed
    angle of 90 degrees is involved) and the pressure at [altitude].  With
    a known module type, and with six or more explicit coefficients, the
    call computes this ratio and evaluates
    [c0*Ram + c1/(c2 + Ram**c3) + c4/aod500 + c5*sqrt(pw)] on it; on
    scalars the number that enters the expression is
    [absolute_airmass (relative_airmass aoi) (pressure altitude) / airmass_absolute];
    and whatever the key or the coefficients, [aoi], [altitude] and
    [airmass_absolute] reach the result only through this ratio. *)
Theorem C2_airmass_ratio :
  forall (E : Externals) (pw aod500 albedo : value),
    (forall (t : technology) (aoi altitude am : value),
       spectral_factor_polo pw am aod500 aoi altitude (Some (key_of t)) None albedo
       = (am90 <- get_absolute_airmass (get_relative_airmass aoi)
                    (alt2pres altitude) ;;
          Ram <- v_div am90 am ;;
          smm <- Ok (c0 (table_A t)) .* Ok Ram
                 .+ Ok (c1 (table_A t))
                    ./ (Ok (c2 (table_A t)) .+ Ok Ram .** Ok (c3 (table_A t)))
                 .+ Ok (c4 (table_A t)) ./ Ok aod500
                 .+ Ok (c5 (table_A t)) .* Ok (np_sqrt pw) ;;
          g <- albedo_correction (table_B t) albedo ;;
          v_mul g smm))
    /\ (forall (k : six) (rest : list value) (aoi altitude am : value),
         spectral_factor_polo pw am aod500 aoi altitude None
           (Some (as_list k ++ rest)) albedo
         = (am90 <- get_absolute_airmass (get_relative_airmass aoi)
                      (alt2pres altitude) ;;
            Ram <- v_div am90 am ;;
            smm <- Ok (c0 k) .* Ok Ram
                   .+ Ok (c1 k) ./ (Ok (c2 k) .+ Ok Ram .** Ok (c3 k))
                   .+ Ok (c4 k) ./ Ok aod500
                   .+ Ok (c5 k) .* Ok (np_sqrt pw) ;;
            g <- albedo_correction neutral (PyFloat 0.2) ;;
            v_mul g smm))
    /\ (forall (t : technology) (p a d z h al : float),
         spectral_factor_polo (NpFloat p) (PyFloat a) (NpFloat d) (PyFloat z)
           (NpFloat h) (Some (key_of t)) None (NpFloat al)
         = Ok (NpFloat
                 (g_float (table_B t) al
                  * smm_float (table_A t)
                      (absolute_airmass (relative_airmass z)
                         (pressure_from_altitude h) / a) d p))
         /\ spectral_factor_polo (NpFloat p) (NpFloat a) (NpFloat d) (NpFloat z)
              (NpFloat h) (Some (key_of t)) None (NpFloat al)
            = Ok (NpFloat
                    (g_float (table_B t) al
                     * smm_float (table_A t)
                         (absolute_airmass (relative_airmass z)
                            (pressure_from_altitude h) / a) d p)))
    /\ (forall key, exists K : value -> result value,
         forall aoi altitude am,
           spectral_factor_polo pw am aod500 aoi altitude (Some key) None albedo
           = (am90 <- get_absolute_airmass (get_relative_airmass aoi)
                        (alt2pres altitude) ;;
              Ram <- v_div am90 am ;;
              K Ram))
    /\ (forall cs, exists K : value -> result value,
         forall aoi altitude am,
           spectral_factor_polo pw am aod500 aoi altitude None (Some cs) albedo
           = (am90 <- get_absolute_airmass (get_relative_airmass aoi)
                        (alt2pres altitude) ;;
              Ram <- v_div am90 am ;;
              K Ram)).
Proof.
  intros E pw aod500 albedo. split; [ | split; [ | split; [ | split ] ] ].
  - intros t aoi altitude am. rewrite polo_by_module_type.
    unfold airmass_ratio, mismatch.
    destruct (get_absolute_airmass _ _) as [am90|e]; reflexivity.
  - intros k rest aoi altitude am. rewrite polo_by_coefficients.
    unfold airmass_ratio, mismatch.
    destruct (get_absolute_airmass _ _) as [am90|e]; reflexivity.
  - intros t p a d z h al.
    assert (Hnum : forall am aoi,
              is_array am = false -> is_array aoi = false ->
              to_float am = a -> to_float aoi = z ->
              spectral_factor_polo (NpFloat p) am (NpFloat d) aoi
                (NpFloat h) (Some (key_of t)) None (NpFloat al)
              = Ok (NpFloat
                      (g_float (table_B t) al
                       * smm_float (table_A t)
                           (absolute_airmass (relative_airmass z)
                              (pressure_from_altitude h) / a) d p))).
    { intros am aoi Ham Haoi <- <-.
      rewrite (polo_scalar _ _ _ _ _ _ _ _ _ _ _ (by_module_type t (NpFloat al))
                 (scalars_table_A t)) by first [assumption | reflexivity].
      rewrite v_div_numpy_zero by apply scalars_table_A. cbn [bind].
      rewrite albedo_numpy by apply scalars3_table_B. reflexivity. }
    split; apply Hnum; reflexivity.
  - intros key. eexists. intros aoi altitude am.
    unfold spectral_factor_polo. cbn [is_None andb negb]. reflexivity.
  - intros cs. eexists. intros aoi altitude am.
    unfold spectral_factor_polo. cbn [is_None andb negb]. reflexivity.
Qed.

Ltac floats_differ H :=
  apply (f_equal (fun r => match r with
                           | Ok (NpFloat x) | Ok (PyFloat x) => Prim2SF x
                           | _ => S754_nan
                           end)) in H;
  vm_compute in H; discriminate H.

(** C2, as stated, fails: the ratio computed at an angle of incidence of
    30 degrees is not the ratio of a fixed angle of 90 degrees, and the
    result of the call changes with [aoi]. *)
Lemma C2_counterexample :
  airmass_ratio (E := toy) (PyFloat 30) (PyFloat 0) (PyFloat 1.5)
  <> airmass_ratio_at_90 (E := toy) (PyFloat 0) (PyFloat 1.5)
  /\ spectral_factor_polo (E := toy) (PyFloat 1.42) (PyFloat 1.5) (PyFloat 0.2)
       (PyFloat 30) (PyFloat 0) (Some "monosi"%string) None (PyFloat 0.2)
     <> spectral_factor_polo (E := toy) (PyFloat 1.42) (PyFloat 1.5) (PyFloat 0.2)
          (PyFloat 90) (PyFloat 0) (Some "monosi"%string) None (PyFloat 0.2).
Proof.
  split; intros H; floats_differ H.
Qed.

(** ** Explicit coefficients and the albedo correction *)

(** With six or more coefficients the call is the mismatch expression. *)
Lemma polo_coefficients_alone {E : Externals} pw am aod500 aoi altitude albedo k rest :
  pow_of_one E ->
  spectral_factor_polo pw am aod500 aoi altitude None (Some (as_list k ++ rest)) albedo
  = (Ram <- airmass_ratio aoi altitude am ;;
     mismatch k Ram aod500 pw).
Proof.
  intros H1. rewrite polo_by_coefficients.
  destruct (airmass_ratio aoi altitude am) as [Ram|e]; [ | reflexivity ].
  cbn [bind]. destruct (mismatch k Ram aod500 pw) as [smm|e]; [ | reflexivity ].
  cbn [bind]. rewrite (albedo_neutral H1). cbn [bind]. apply v_mul_one_l.
Qed.

(** C3: with explicit coefficients (and no module type) the result is the
    same for every albedo the caller passes; the albedo used is 0.2 and the
    triple is (0, 0, 1), so that (1.0 ** 2 being 1.0) [g] is exactly 1 and,
    with at least six coefficients, the call returns the mismatch
    expression alone. *)
Theorem C3_albedo_ignored_with_coefficients :
  forall (E : Externals) (pw am aod500 aoi altitude : value) (cs : list value),
    (forall albedo albedo',
       spectral_factor_polo pw am aod500 aoi altitude None (Some cs) albedo
       = spectral_factor_polo pw am aod500 aoi altitude None (Some cs) albedo')
    /\ (pow_of_one E ->
        albedo_correction neutral (PyFloat 0.2) = Ok (PyFloat 1)
        /\ forall k rest albedo, cs = as_list k ++ rest ->
             spectral_factor_polo pw am aod500 aoi altitude None (Some cs) albedo
             = (Ram <- airmass_ratio aoi altitude am ;;
                mismatch k Ram aod500 pw)).
Proof.
  intros E pw am aod500 aoi altitude cs. split; [ | intros H1; split ].
  - intros albedo albedo'. reflexivity.
  - apply albedo_neutral, H1.
  - intros k rest albedo ->. now apply polo_coefficients_alone.
Qed.

Lemma C3_witness :
  pow_of_one toy
  /\ albedo_correction (E := toy) neutral (PyFloat 0.2) = Ok (PyFloat 1)
  /\ spectral_factor_polo (E := toy) (PyFloat 1.42) (PyFloat 1.5) (PyFloat 0.2)
       (PyFloat 30) (PyFloat 0) None
       (Some (as_list (table_A monosi))) (PyFloat 0.9)
     = (Ram <- airmass_ratio (E := toy) (PyFloat 30) (PyFloat 0) (PyFloat 1.5) ;;
        mismatch (E := toy) (table_A monosi) Ram (PyFloat 0.2) (PyFloat 1.42)).
Proof.
  split; [exact toy_pow_of_one | ].
  destruct (proj2 (C3_albedo_ignored_with_coefficients toy
                     (PyFloat 1.42) (PyFloat 1.5) (PyFloat 0.2) (PyFloat 30)
                     (PyFloat 0) (as_list (table_A monosi))) toy_pow_of_one)
    as [Hg Hcall].
  split; [exact Hg | ].
  exact (Hcall (table_A monosi) [] (PyFloat 0.9) eq_refl).
Defined.

(** C4: for each of the four module types, the call with that type's six
    table-A values as explicit coefficients returns the mismatch expression
    [smm] that the call with the module type computes, and the latter's
    result is the former's multiplied by that type's albedo correction:
    result(module_type = t) = g_t(albedo) * result(coefficients = A[t]). *)
Theorem C4_coefficients_reproduce_smm :
  forall (E : Externals), pow_of_one E ->
  forall (t : technology) (pw am aod500 aoi altitude albedo : value),
    spectral_factor_polo pw am aod500 aoi altitude None
      (Some (as_list (table_A t))) albedo
    = (Ram <- airmass_ratio aoi altitude am ;;
       mismatch (table_A t) Ram aod500 pw)
    /\ spectral_factor_polo pw am aod500 aoi altitude (Some (key_of t)) None albedo
       = (smm <- spectral_factor_polo pw am aod500 aoi altitude None
                   (Some (as_list (table_A t))) albedo ;;
          g <- albedo_correction (table_B t) albedo ;;
          v_mul g smm).
Proof.
  intros E H1 t pw am aod500 aoi altitude albedo.
  assert (Hc : spectral_factor_polo pw am aod500 aoi altitude None
                 (Some (as_list (table_A t))) albedo
               = (Ram <- airmass_ratio aoi altitude am ;;
                  mismatch (table_A t) Ram aod500 pw)).
  { rewrite <- (polo_coefficients_alone pw am aod500 aoi altitude albedo
                    (table_A t) [] H1).
    now destruct t. }
  split; [exact Hc | ].
  rewrite Hc, polo_by_module_type.
  destruct (airmass_ratio aoi altitude am) as [Ram|e]; reflexivity.
Qed.

Lemma C4_witness :
  spectral_factor_polo (E := toy) (PyFloat 1.42) (PyFloat 1.5) (PyFloat 0.2)
    (PyFloat 30) (PyFloat 0) (Some (key_of cigs)) None (PyFloat 0.3)
  = (smm <- spectral_factor_polo (E := toy) (PyFloat 1.42) (PyFloat 1.5)
              (PyFloat 0.2) (PyFloat 30) (PyFloat 0) None
              (Some (as_list (table_A cigs))) (PyFloat 0.3) ;;
     g <- albedo_correction (E := toy) (table_B cigs) (PyFloat 0.3) ;;
     v_mul g smm).
Proof.
  apply (proj2 (C4_coefficients_reproduce_smm toy toy_pow_of_one cigs
                  (PyFloat 1.42) (PyFloat 1.5) (PyFloat 0.2) (PyFloat 30)
                  (PyFloat 0) (PyFloat 0.3))).
Defined.

Lemma albedo_at_reference {E : Externals} (t : technology) :
  pow_of_one E ->
  albedo_correction (table_B t) (PyFloat 0.2) = Ok (PyFloat (sum_three (table_B t))).
Proof.
  intros H1. unfold albedo_correction, lift2.
  destruct t; cbn; change (0.2 / 0.2)%float with 1%float; rewrite H1; reflexivity.
Qed.

Lemma albedo_builtin {E : Externals} (b : three) (x : float) :
  is_numpy (b0 b) = false -> is_numpy (b1 b) = false -> is_numpy (b2 b) = false ->
  albedo_correction b (PyFloat x)
  = (p <- float_pow (x / 0.2) 2 ;;
     Ok (PyFloat (to_float (b0 b) * p + to_float (b1 b) * (x / 0.2)
                  + to_float (b2 b)))).
Proof.
  destruct b as [[y0|y0|ys0] [y1|y1|ys1] [y2|y2|ys2]]; cbn [b0 b1 b2];
    try discriminate; intros _ _ _.
  unfold albedo_correction, lift2. cbn.
  destruct (float_pow (x / 0.2) 2); reflexivity.
Qed.

Ltac albedo_step :=
  first [ rewrite binop_arr_arr
        | rewrite binop_arr_l by first [assumption | reflexivity]
        | rewrite binop_arr_r by first [assumption | reflexivity] ];
  cbn [bind].

(** On an array the polynomial is evaluated element by element. *)
Lemma albedo_array {E : Externals} (b : three) (xs : list float) :
  scalars3 b ->
  albedo_correction b (NpArray xs) = Ok (NpArray (map (g_float b) xs)).
Proof.
  intros (Hb0 & Hb1 & Hb2). rewrite <- (map_id xs) at 1.
  unfold albedo_correction, lift2, v_mul, v_add, v_pow, v_div. cbn [bind].
  repeat albedo_step. reflexivity.
Qed.

Lemma g_float_at_reference {E : Externals} (t : technology) :
  np_power 1 2 = 1%float ->
  g_float (table_B t) 0.2 = sum_three (table_B t).
Proof.
  intros H1. unfold g_float. change (0.2 / 0.2)%float with 1%float. rewrite H1.
  destruct t; reflexivity.
Qed.

(** C5 (as amended): at an albedo of 0.2, built-in or NumPy, the ratio
    [albedo/0.2] is 1 and [g] is the sum [b0 + b1 + b2] of the three
    table-B entries, added left to right, which for each of the four types
    differs from the third entry [b2]; the call then returns
    [(b0 + b1 + b2) * smm].  In general [g] is the quadratic
    [b0*x**2 + b1*x + b2] in [x = albedo/0.2], element by element on an
    array.  (1.0 ** 2 is taken to be 1.0 for both kinds of float.) *)
Theorem C5_albedo_correction_at_reference :
  forall (E : Externals), pow_of_one E -> np_power 1 2 = 1%float ->
  forall (t : technology),
    (albedo_correction (table_B t) (PyFloat 0.2)
     = Ok (PyFloat (sum_three (table_B t)))
     /\ albedo_correction (table_B t) (NpFloat 0.2)
        = Ok (NpFloat (sum_three (table_B t))))
    /\ sum_three (table_B t) <> to_float (b2 (table_B t))
    /\ (forall pw am aod500 aoi altitude,
         spectral_factor_polo pw am aod500 aoi altitude (Some (key_of t)) None
           (PyFloat 0.2)
         = (Ram <- airmass_ratio aoi altitude am ;;
            smm <- mismatch (table_A t) Ram aod500 pw ;;
            v_mul (PyFloat (sum_three (table_B t))) smm)
         /\ spectral_factor_polo pw am aod500 aoi altitude (Some (key_of t)) None
              (NpFloat 0.2)
            = (Ram <- airmass_ratio aoi altitude am ;;
               smm <- mismatch (table_A t) Ram aod500 pw ;;
               v_mul (NpFloat (sum_three (table_B t))) smm))
    /\ (forall x : float,
         albedo_correction (table_B t) (PyFloat x)
         = (p <- float_pow (x / 0.2) 2 ;;
            Ok (PyFloat (to_float (b0 (table_B t)) * p
                         + to_float (b1 (table_B t)) * (x / 0.2)
                         + to_float (b2 (table_B t))))))
    /\ (forall a : float,
         albedo_correction (table_B t) (NpFloat a)
         = Ok (NpFloat (to_float (b0 (table_B t)) * np_power (a / 0.2) 2
                        + to_float (b1 (table_B t)) * (a / 0.2)
                        + to_float (b2 (table_B t)))))
    /\ (forall xs : list float,
         albedo_correction (table_B t) (NpArray xs)
         = Ok (NpArray
                 (map (fun a => to_float (b0 (table_B t)) * np_power (a / 0.2) 2
                                + to_float (b1 (table_B t)) * (a / 0.2)
                                + to_float (b2 (table_B t)))%float xs))).
Proof.
  intros E H1 Hnp t.
  assert (Hpy : albedo_correction (table_B t) (PyFloat 0.2)
                = Ok (PyFloat (sum_three (table_B t))))
    by now apply albedo_at_reference.
  assert (Hnum : albedo_correction (table_B t) (NpFloat 0.2)
                 = Ok (NpFloat (sum_three (table_B t)))).
  { rewrite albedo_numpy by apply scalars3_table_B.
    now rewrite g_float_at_reference. }
  split; [now split | ]. split; [ | split; [ | split; [ | split ] ] ].
  - intros H.
    apply (f_equal Prim2SF) in H. destruct t; vm_compute in H; discriminate H.
  - intros pw am aod500 aoi altitude. rewrite !polo_by_module_type.
    destruct (airmass_ratio aoi altitude am) as [Ram|e]; [ | now split ].
    cbn [bind]. destruct (mismatch _ _ _ _) as [smm|e]; [ | now split ].
    cbn [bind]. now rewrite Hpy, Hnum.
  - intros x. apply albedo_builtin; now destruct t.
  - intros a. apply albedo_numpy, scalars3_table_B.
  - intros xs. apply albedo_array, scalars3_table_B.
Qed.

Lemma toy_power_of_one : np_power (Externals := toy) 1 2 = 1%float.
Proof. reflexivity. Qed.

Lemma C5_witness :
  albedo_correction (E := toy) (table_B asi) (PyFloat 0.2)
  = Ok (PyFloat (sum_three (table_B asi)))
  /\ albedo_correction (E := toy) (table_B asi) (NpFloat 0.2)
     = Ok (NpFloat (sum_three (table_B asi))).
Proof.
  apply (proj1 (C5_albedo_correction_at_reference toy toy_pow_of_one
                  toy_power_of_one asi)).
Defined.

(** C5, as stated, fails: for amorphous silicon [g] at an albedo of 0.2 is
    not the third table-B entry, and [g] first falls and then rises as the
    albedo grows from 0 to 1. *)
Lemma C5_counterexample :
  albedo_correction (E := toy) (table_B asi) (PyFloat 0.2)
  <> Ok (b2 (table_B asi))
  /\ exists lo mid hi : float,
       albedo_correction (E := toy) (table_B asi) (PyFloat 0) = Ok (PyFloat lo)
       /\ albedo_correction (E := toy) (table_B asi) (PyFloat 0.2) = Ok (PyFloat mid)
       /\ albedo_correction (E := toy) (table_B asi) (PyFloat 1) = Ok (PyFloat hi)
       /\ (mid <? lo)%float = true /\ (mid <? hi)%float = true.
Proof.
  split.
  - intros H; floats_differ H.
  - do 3 eexists. repeat split; vm_compute; reflexivity.
Qed.

(** ** Degenerate inputs *)

Lemma v_div_defined_scalar a b :
  is_array a = false -> is_array b = false -> python_zero b = false ->
  exists c, v_div a b = Ok c.
Proof.
  destruct a as [x|x|xs], b as [y|y|ys]; try discriminate; intros _ _ Hz;
    cbn in *; try (now eexists).
  unfold py_div. rewrite Hz. now eexists.
Qed.

(** A built-in zero [aod500] under a built-in [c4] raises, whatever the
    environment. *)
Lemma polo_builtin_zero_aod {E : Externals}
  pw am aod500 aoi altitude mt cs albedo k b albedo' :
  resolves mt cs albedo k b albedo' -> scalars k ->
  is_array pw = false -> is_array am = false -> is_array aod500 = false ->
  is_array aoi = false -> is_array altitude = false -> is_array albedo = false ->
  python_zero aod500 = true -> is_numpy (c4 k) = false ->
  spectral_factor_polo pw am aod500 aoi altitude mt cs albedo
  = Raise ZeroDivisionError.
Proof.
  intros Hr Hk Hpw Ham Haod Haoi Halt Halb Hz Hc4.
  rewrite (polo_scalar _ _ _ _ _ _ _ _ _ _ _ Hr) by assumption.
  destruct (c4 k) as [x|x|xs]; try discriminate.
  now rewrite v_div_builtin_zero.
Qed.

(** C8, as stated, fails: the scenario of the specification with an
    [aod500] of zero raises [ZeroDivisionError]. *)
Lemma C8_counterexample :
  spectral_factor_polo (E := toy) (PyFloat 1.42) (PyFloat 1.5) (PyFloat 0)
    (PyFloat 30) (PyFloat 0) (Some "monosi"%string) None (PyFloat 0.2)
  = Raise ZeroDivisionError.
Proof.
  vm_compute. reflexivity.
Qed.

(** ** Arrays *)

Section Elementwise.

Context {E : Externals}.

Variable n : nat.

Lemma nth_map_in_range (h : float -> float) xs i d :
  i < length xs -> nth i (map h xs) d = h (nth i xs d).
Proof.
  intros Hi. rewrite (nth_indep _ d (h d)) by now rewrite length_map.
  apply map_nth.
Qed.

Lemma scalar_conforms v : is_array v = false -> conforms n v.
Proof. destruct v; [easy | easy | discriminate]. Qed.

Lemma elem_scalar i v : is_array v = false -> elem i v = v.
Proof. destruct v; [easy | easy | discriminate]. Qed.

Lemma elementwise_ok v :
  conforms n v -> elementwise n (Ok v) (fun i => Ok (elem i v)).
Proof. intros Hv. split; [assumption | reflexivity]. Qed.

Lemma elementwise_const v :
  is_array v = false -> elementwise n (Ok v) (fun _ => Ok v).
Proof.
  intros Hv. split; [now apply scalar_conforms | ].
  intros i _. now rewrite elem_scalar.
Qed.

Lemma elementwise_ext r rs rs' :
  (forall i, i < n -> rs i = rs' i) -> elementwise n r rs -> elementwise n r rs'.
Proof.
  intros Hext. destruct r as [v|e]; cbn.
  - intros [Hc H]. split; [assumption | ]. intros i Hi. rewrite <- Hext; auto.
  - intros H i Hi. rewrite <- Hext; auto.
Qed.

Lemma binop_elementwise f pyf a b :
  conforms n a -> conforms n b ->
  elementwise n (v_binop f pyf a b) (fun i => v_binop f pyf (elem i a) (elem i b)).
Proof.
  intros Ha Hb. destruct a as [x|x|xs], b as [y|y|ys]; cbn in Ha, Hb.
  - cbn. destruct (pyf x y) as [r|e]; cbn; [split; [exact I | reflexivity] | reflexivity].
  - split; [exact I | reflexivity].
  - split; [cbn; now rewrite length_map | ].
    intros i Hi. cbn. now rewrite nth_map_in_range by lia.
  - split; [exact I | reflexivity].
  - split; [exact I | reflexivity].
  - split; [cbn; now rewrite length_map | ].
    intros i Hi. cbn. now rewrite nth_map_in_range by lia.
  - split; [cbn; now rewrite length_map | ].
    intros i Hi. cbn. now rewrite (nth_map_in_range (fun x => f x y)) by lia.
  - split; [cbn; now rewrite length_map | ].
    intros i Hi. cbn. now rewrite (nth_map_in_range (fun x => f x y)) by lia.
  - cbn. unfold broadcast.
    replace (length xs =? length ys)%nat with true
      by (symmetry; apply Nat.eqb_eq; congruence).
    cbn. split; [rewrite length_map2; congruence | ].
    intros i Hi. rewrite nth_map2; [reflexivity | congruence | lia].
Qed.

Lemma elementwise_bind r rs (K : value -> result value)
  (K' : nat -> value -> result value) :
  elementwise n r rs ->
  (forall v, conforms n v -> elementwise n (K v) (fun i => K' i (elem i v))) ->
  elementwise n (bind r K) (fun i => bind (rs i) (K' i)).
Proof.
  destruct r as [v|e]; cbn [elementwise bind].
  - intros [Hc H] HK. apply (elementwise_ext _ (fun i => K' i (elem i v))).
    + intros i Hi. now rewrite H.
    + now apply HK.
  - intros H _ i Hi. now rewrite H.
Qed.

Lemma elementwise_lift2 f pyf ra rsa rb rsb :
  elementwise n ra rsa -> elementwise n rb rsb ->
  elementwise n (lift2 (v_binop f pyf) ra rb)
    (fun i => lift2 (v_binop f pyf) (rsa i) (rsb i)).
Proof.
  intros Ha Hb. unfold lift2.
  apply (elementwise_bind ra rsa _
           (fun i a => b <- rsb i ;; v_binop f pyf a b) Ha).
  intros a Hca.
  apply (elementwise_bind rb rsb _ (fun i b => v_binop f pyf (elem i a) b) Hb).
  intros b Hcb. now apply binop_elementwise.
Qed.

Lemma elementwise_sqrt v :
  conforms n v -> elementwise n (Ok (np_sqrt v)) (fun i => Ok (np_sqrt (elem i v))).
Proof.
  intros Hv. destruct v as [x|x|xs]; cbn in *;
    try (split; [exact I | reflexivity]).
  split; [now rewrite length_map | ].
  intros i Hi. now rewrite nth_map_in_range by lia.
Qed.

Lemma elementwise_relative_airmass v :
  conforms n v ->
  elementwise n (Ok (get_relative_airmass v))
    (fun i => Ok (get_relative_airmass (elem i v))).
Proof.
  intros Hv. destruct v as [x|x|xs]; cbn in *;
    try (split; [exact I | reflexivity]).
  split; [now rewrite length_map | ].
  intros i Hi. now rewrite nth_map_in_range by lia.
Qed.

Lemma elementwise_alt2pres v :
  conforms n v ->
  elementwise n (Ok (alt2pres v)) (fun i => Ok (alt2pres (elem i v))).
Proof.
  intros Hv. destruct v as [x|x|xs]; cbn in *;
    try (split; [exact I | reflexivity]).
  split; [now rewrite length_map | ].
  intros i Hi. now rewrite nth_map_in_range by lia.
Qed.

Lemma elementwise_airmass_ratio aoi altitude am :
  conforms n aoi -> conforms n altitude -> conforms n am ->
  elementwise n (airmass_ratio aoi altitude am)
    (fun i => airmass_ratio (elem i aoi) (elem i altitude) (elem i am)).
Proof.
  intros Ha Hh Hm.
  apply (elementwise_lift2 PrimFloat.div py_div
           (get_absolute_airmass (get_relative_airmass aoi) (alt2pres altitude))
           (fun i => get_absolute_airmass (get_relative_airmass (elem i aoi))
                       (alt2pres (elem i altitude)))
           (Ok am) (fun i => Ok (elem i am))).
  - apply (elementwise_lift2 absolute_airmass
             (fun a p => Ok (absolute_airmass a p))
             (Ok (get_relative_airmass aoi))
             (fun i => Ok (get_relative_airmass (elem i aoi)))
             (Ok (alt2pres altitude))
             (fun i => Ok (alt2pres (elem i altitude)))).
    + now apply elementwise_relative_airmass.
    + now apply elementwise_alt2pres.
  - now apply elementwise_ok.
Qed.

Lemma elementwise_mismatch k Ram aod500 pw :
  scalars k -> conforms n Ram -> conforms n aod500 -> conforms n pw ->
  elementwise n (mismatch k Ram aod500 pw)
    (fun i => mismatch k (elem i Ram) (elem i aod500) (elem i pw)).
Proof.
  intros (H0 & H1 & H2 & H3 & H4 & H5) HR Ha Hp. unfold mismatch.
  repeat first
    [ apply elementwise_lift2
    | apply elementwise_sqrt; assumption
    | apply elementwise_const; assumption
    | apply elementwise_ok; assumption ].
Qed.

Lemma elementwise_albedo b albedo :
  scalars3 b -> conforms n albedo ->
  elementwise n (albedo_correction b albedo)
    (fun i => albedo_correction b (elem i albedo)).
Proof.
  intros (H0 & H1 & H2) Ha. unfold albedo_correction.
  repeat first
    [ apply elementwise_lift2
    | apply elementwise_const; first [assumption | reflexivity]
    | apply elementwise_ok; assumption ].
Qed.

(** An element-aligned call agrees, position by position, with the calls
    on the elements. *)
Lemma polo_elementwise pw am aod500 aoi altitude mt cs albedo k b albedo' :
  resolves mt cs albedo k b albedo' -> scalars k ->
  conforms n pw -> conforms n am -> conforms n aod500 ->
  conforms n aoi -> conforms n altitude -> conforms n albedo ->
  elementwise n
    (spectral_factor_polo pw am aod500 aoi altitude mt cs albedo)
    (fun i => spectral_factor_polo (elem i pw) (elem i am) (elem i aod500)
                (elem i aoi) (elem i altitude) mt cs (elem i albedo)).
Proof.
  intros Hr Hk Hpw Ham Haod Haoi Halt Halb.
  assert (Hr' : forall i, resolves mt cs (elem i albedo) k b (elem i albedo')).
  { intros i. destruct Hr; constructor. }
  assert (Hb : scalars3 b /\ conforms n albedo').
  { destruct Hr; split; try assumption;
      [apply scalars3_table_B | repeat split | exact I]. }
  destruct Hb as [Hb Halb'].
  rewrite (polo_resolved _ _ _ _ _ _ _ _ _ _ _ Hr).
  apply (elementwise_ext _
    (fun i => Ram <- airmass_ratio (elem i aoi) (elem i altitude) (elem i am) ;;
              smm <- mismatch k Ram (elem i aod500) (elem i pw) ;;
              g <- albedo_correction b (elem i albedo') ;;
              v_mul g smm)).
  { intros i _. now rewrite (polo_resolved _ _ _ _ _ _ _ _ _ _ _ (Hr' i)). }
  apply (elementwise_bind _ _ _
    (fun i Ram => smm <- mismatch k Ram (elem i aod500) (elem i pw) ;;
                  g <- albedo_correction b (elem i albedo') ;;
                  v_mul g smm)).
  { now apply elementwise_airmass_ratio. }
  intros Ram HR.
  apply (elementwise_bind _ _ _
    (fun i smm => g <- albedo_correction b (elem i albedo') ;; v_mul g smm)).
  { now apply elementwise_mismatch. }
  intros smm Hs.
  apply (elementwise_bind _ _ _ (fun i g => v_mul g (elem i smm))).
  { now apply elementwise_albedo. }
  intros g Hg. now apply binop_elementwise.
Qed.

End Elementwise.

(** C9: given an array of [airmass_absolute] of any length and scalars for
    the rest, such that a scalar call returns, the call returns an array of
    that length whose entry at each position is what the scalar call
    returns for the airmass at that position (passed as a NumPy or as a
    built-in float).  More generally, when each array-valued input has
    length [n], the call and the [n] calls on the elements agree position
    by position: they return the same numbers or raise the same
    exception. *)
Theorem C9_vectorized_over_airmass :
  forall (E : Externals) (mt : option string) (cs : option (list value))
         (albedo : value) (k : six) (b : three) (albedo' : value),
    resolves mt cs albedo k b albedo' -> scalars k ->
    (forall (pw aod500 aoi altitude : value) (xs : list float),
       is_array pw = false -> is_array aod500 = false ->
       is_array aoi = false -> is_array altitude = false ->
       is_array albedo = false ->
       (exists x0 y0,
          spectral_factor_polo pw (NpFloat x0) aod500 aoi altitude mt cs albedo
          = Ok y0) ->
       exists ys,
         spectral_factor_polo pw (NpArray xs) aod500 aoi altitude mt cs albedo
         = Ok (NpArray ys)
         /\ length ys = length xs
         /\ forall i x, nth_error xs i = Some x ->
              exists y, nth_error ys i = Some y
                /\ spectral_factor_polo pw (NpFloat x) aod500 aoi altitude mt cs albedo
                   = Ok (NpFloat y)
                /\ spectral_factor_polo pw (PyFloat x) aod500 aoi altitude mt cs albedo
                   = Ok (NpFloat y))
    /\ (forall (n : nat) (pw am aod500 aoi altitude : value),
          conforms n pw -> conforms n am -> conforms n aod500 ->
          conforms n aoi -> conforms n altitude -> conforms n albedo ->
          elementwise n
            (spectral_factor_polo pw am aod500 aoi altitude mt cs albedo)
            (fun i => spectral_factor_polo (elem i pw) (elem i am) (elem i aod500)
                        (elem i aoi) (elem i altitude) mt cs (elem i albedo))).
Proof.
  intros E mt cs albedo k b albedo' Hr Hk. split.
  - intros pw aod500 aoi altitude xs Hpw Haod Haoi Halt Halb (x0 & y0 & H0).
    rewrite (polo_scalar _ _ _ _ _ _ _ _ _ _ _ Hr Hk) in H0
      by first [assumption | reflexivity].
    rewrite (polo_airmass_array _ _ _ _ _ _ _ _ _ _ _ Hr Hk) by assumption.
    destruct (v_div (c4 k) aod500) as [t3|e] eqn:Ht3; [ | discriminate H0 ].
    destruct (albedo_correction b albedo') as [gv|e] eqn:Hg; [ | discriminate H0 ].
    cbn [bind]. eexists. split; [reflexivity | ]. split; [apply length_map | ].
    intros i x Hx. eexists. split; [ | split ].
    + rewrite nth_error_map, Hx. reflexivity.
    + rewrite (polo_scalar _ _ _ _ _ _ _ _ _ _ _ Hr Hk)
        by first [assumption | reflexivity].
      rewrite Ht3, Hg. reflexivity.
    + rewrite (polo_scalar _ _ _ _ _ _ _ _ _ _ _ Hr Hk)
        by first [assumption | reflexivity].
      rewrite Ht3, Hg. reflexivity.
  - intros n pw am aod500 aoi altitude Hpw Ham Haod Haoi Halt Halb.
    now apply (polo_elementwise n _ _ _ _ _ _ _ _ _ _ _ Hr Hk).
Qed.

Lemma C9_witness :
  exists ys,
    spectral_factor_polo (E := toy) (PyFloat 1.42) (NpArray [1.5; 2; 3.25]%float)
      (PyFloat 0.2) (PyFloat 30) (PyFloat 0) (Some (key_of monosi)) None
      (PyFloat 0.2)
    = Ok (NpArray ys)
    /\ length ys = 3.
Proof.
  destruct (proj1 (C9_vectorized_over_airmass toy (Some (key_of monosi)) None
                     (PyFloat 0.2) (table_A monosi) (table_B monosi) (PyFloat 0.2)
                     (by_module_type monosi (PyFloat 0.2))
                     (scalars_table_A monosi))
              (PyFloat 1.42) (PyFloat 0.2) (PyFloat 30) (PyFloat 0)
              [1.5; 2; 3.25]%float eq_refl eq_refl eq_refl eq_refl eq_refl
              (ex_intro _ 1.5%float (ex_intro _ _ eq_refl)))
    as (ys & Hcall & Hlen & _).
  exists ys. split; [exact Hcall | exact Hlen].
Defined.

(** ** The length of the coefficient sequence *)

Lemma conforms_sqrt n pw : conforms n pw -> conforms n (np_sqrt pw).
Proof. destruct pw; cbn; [easy | easy | now rewrite length_map]. Qed.

Lemma numpy_sqrt pw : is_numpy (np_sqrt pw) = true.
Proof. now destruct pw. Qed.

Ltac solve_conforms n :=
  first [ assumption
        | apply (scalar_conforms n); assumption
        | apply conforms_sqrt; assumption ].

Ltac solve_builtin :=
  let x := fresh "x" in let y := fresh "y" in
  let Hx := fresh "Hx" in let Hy := fresh "Hy" in
  intros x y Hx Hy;
  first [ eexists; reflexivity
        | exfalso; subst; cbn in *; congruence
        | subst; cbn in *; unfold py_div;
          match goal with H : (_ =? 0)%float = false |- _ => rewrite H end;
          eexists; reflexivity ].

(** One operator of the expression, on element-aligned operands. *)
Ltac defined_step n :=
  match goal with
  | |- context [bind (v_binop ?f ?p ?a ?b) _] =>
      let c := fresh "c" in
      let He := fresh "He" in let Hc := fresh "Hc" in let Hn := fresh "Hn" in
      destruct (binop_defined f p n a b) as (c & He & Hc & Hn);
      [ solve_conforms n | solve_conforms n | solve_builtin
      | rewrite He; cbn [bind];
        try match goal with
            | H : is_numpy a = true |- _ => rewrite H in Hn; cbn [orb] in Hn
            | H : is_numpy b = true |- _ => rewrite H, orb_true_r in Hn
            end ]
  end.

(** C10: with explicit coefficients only the first six entries are read:
    two sequences that agree on them give the same result, whatever
    follows; a sequence of fewer than six scalars makes the call raise
    [IndexError], not the [ValueError] of the argument check, on
    element-aligned inputs whose [aod500] is not a built-in zero. *)
Theorem C10_only_six_coefficients_read :
  forall (E : Externals) (pw am aod500 aoi altitude albedo : value),
    (forall k rest rest',
       spectral_factor_polo pw am aod500 aoi altitude None
         (Some (as_list k ++ rest)) albedo
       = spectral_factor_polo pw am aod500 aoi altitude None
           (Some (as_list k ++ rest')) albedo)
    /\ (forall n cs,
          length cs < 6 -> Forall (fun v => is_array v = false) cs ->
          conforms n pw -> conforms n am -> conforms n aod500 ->
          conforms n aoi -> conforms n altitude ->
          python_zero aod500 = false ->
          spectral_factor_polo pw am aod500 aoi altitude None (Some cs) albedo
          = Raise IndexError).
Proof.
  intros E pw am aod500 aoi altitude albedo. split.
  - intros k rest rest'. now rewrite !polo_by_coefficients.
  - intros n cs Hlen Hcs Hpw Ham Haod Haoi Halt Hz.
    destruct (airmass_ratio_defined n aoi altitude am Haoi Halt Ham)
      as (Ram & HR & HcR & HnR).
    pose proof (numpy_sqrt pw) as Hnsq.
    unfold airmass_ratio in HR. unfold spectral_factor_polo.
    cbn [is_None andb negb].
    destruct (get_absolute_airmass _ _) as [am90|e]; [ | discriminate ].
    cbn [bind] in *. rewrite HR. cbn [bind].
    unfold lift2, v_mul, v_add, v_div, v_pow.
    destruct cs as [|x0 [|x1 [|x2 [|x3 [|x4 [|x5 cs]]]]]];
      cbn [length] in Hlen; try lia;
      repeat match goal with
             | H : Forall _ (_ :: _) |- _ => inversion H; clear H; subst
             end;
      cbn [bind subscript nth_error];
      repeat defined_step n; reflexivity.
Qed.

Lemma C10_witness :
  spectral_factor_polo (E := toy) (PyFloat 1.42) (PyFloat 1.5) (PyFloat 0.2)
    (PyFloat 30) (PyFloat 0) None
    (Some [PyFloat 0.0027; PyFloat 10.34; PyFloat 9.48; PyFloat 0.307;
           PyFloat 0.00077])
    (PyFloat 0.2)
  = Raise IndexError.
Proof.
  apply (proj2 (C10_only_six_coefficients_read toy (PyFloat 1.42) (PyFloat 1.5)
                  (PyFloat 0.2) (PyFloat 30) (PyFloat 0) (PyFloat 0.2)) 1);
    first [ exact I | reflexivity | repeat constructor | cbn; lia ].
Defined.

(** ** Degenerate inputs on element-aligned calls *)

(** The number of a quotient of scalars, when there is one. *)
Lemma v_div_number a b c :
  is_array a = false -> is_array b = false ->
  v_div a b = Ok c -> to_float c = (to_float a / to_float b)%float.
Proof.
  destruct a as [x|x|xs], b as [y|y|ys]; try discriminate; intros _ _; cbn.
  - unfold py_div. destruct (y =? 0)%float; cbn; [discriminate | now intros [= <-]].
  - now intros [= <-].
  - now intros [= <-].
  - now intros [= <-].
Qed.

Lemma elem_is_scalar i v : is_array (elem i v) = false.
Proof. now destruct v. Qed.

Ltac solve_aligned n :=
  first [ assumption
        | exact I
        | apply (scalar_conforms n); first [assumption | reflexivity]
        | apply conforms_sqrt; assumption ].

Ltac solve_aligned_builtin :=
  let x := fresh "x" in let y := fresh "y" in
  let Hx := fresh "Hx" in let Hy := fresh "Hy" in
  intros x y Hx Hy;
  first [ eexists; reflexivity
        | exfalso; rewrite ?Hx, ?Hy in *; cbn in *; congruence
        | rewrite ?Hx, ?Hy in *; cbn in *; unfold py_div;
          match goal with H : (_ =? 0)%float = false |- _ => rewrite H end;
          eexists; reflexivity ].

Ltac aligned_step n :=
  match goal with
  | |- context [bind (v_binop ?f ?p ?a ?b) _] =>
      let c := fresh "c" in
      let He := fresh "He" in let Hc := fresh "Hc" in let Hn := fresh "Hn" in
      destruct (binop_defined f p n a b) as (c & He & Hc & Hn);
      [ solve_aligned n | solve_aligned n | solve_aligned_builtin
      | rewrite He; cbn [bind];
        try match goal with
            | H : is_numpy a = true |- _ => rewrite H in Hn; cbn [orb] in Hn
            | H : is_numpy b = true |- _ => rewrite H, orb_true_r in Hn
            end ]
  end.

(** On element-aligned operands the mismatch expression can only raise at
    [c4/aod500], between two built-in floats. *)
Lemma mismatch_defined {E : Externals} n k Ram aod500 pw :
  scalars k -> conforms n Ram -> is_numpy Ram = true ->
  conforms n aod500 -> conforms n pw ->
  python_zero aod500 = false \/ is_numpy (c4 k) = true ->
  exists smm, mismatch k Ram aod500 pw = Ok smm
              /\ conforms n smm /\ is_numpy smm = true.
Proof.
  intros (H0 & H1 & H2 & H3 & H4 & H5) HcR HnR Ha Hp Hsafe.
  pose proof (numpy_sqrt pw) as Hnsq.
  unfold mismatch, lift2, v_mul, v_add, v_div, v_pow. cbn [bind].
  destruct Hsafe as [Hz|Hnp]; repeat aligned_step n;
    match goal with
    | Hnum : is_numpy ?a = true |- exists smm, v_binop ?f ?p ?a ?b = Ok smm /\ _ =>
        destruct (binop_defined f p n a b) as (smm & Hs & Hcs & Hns);
        [ assumption | assumption | solve_aligned_builtin
        | exists smm; rewrite Hnum in Hns; now repeat split ]
    end.
Qed.

Lemma mismatch_zero_division {E : Externals} n k Ram aod500 pw :
  scalars k -> conforms n Ram -> is_numpy Ram = true ->
  python_zero aod500 = true -> is_numpy (c4 k) = false ->
  mismatch k Ram aod500 pw = Raise ZeroDivisionError.
Proof.
  intros (H0 & H1 & H2 & H3 & H4 & H5) HcR HnR Hz Hpy.
  unfold mismatch, lift2, v_mul, v_add, v_div, v_pow. cbn [bind].
  do 5 aligned_step n.
  destruct (c4 k) as [x|x|xs]; try discriminate.
  destruct aod500 as [y|y|ys]; try discriminate.
  cbn in *. unfold py_div. now rewrite Hz.
Qed.

Lemma resolves_aligned {E : Externals} n mt cs albedo k b albedo' gv :
  resolves mt cs albedo k b albedo' -> conforms n albedo ->
  albedo_correction b albedo' = Ok gv ->
  scalars3 b /\ conforms n albedo' /\ conforms n gv.
Proof.
  intros Hr Ha Hg.
  assert (Hb : scalars3 b /\ conforms n albedo').
  { destruct Hr; split; try assumption;
      [apply scalars3_table_B | repeat split | exact I]. }
  destruct Hb as [Hb Ha']. split; [assumption | split; [assumption | ] ].
  pose proof (elementwise_albedo n b albedo' Hb Ha') as Hew.
  rewrite Hg in Hew. apply Hew.
Qed.

(** An element-aligned call returns unless a built-in zero [aod500] meets
    a built-in [c4] or the albedo polynomial raises. *)
Lemma polo_aligned_returns {E : Externals}
  n pw am aod500 aoi altitude mt cs albedo k b albedo' gv :
  resolves mt cs albedo k b albedo' -> scalars k ->
  conforms n pw -> conforms n am -> conforms n aod500 ->
  conforms n aoi -> conforms n altitude -> conforms n albedo ->
  albedo_correction b albedo' = Ok gv ->
  python_zero aod500 = false \/ is_numpy (c4 k) = true ->
  exists v, spectral_factor_polo pw am aod500 aoi altitude mt cs albedo = Ok v.
Proof.
  intros Hr Hk Hpw Ham Haod Haoi Halt Halb Hg Hsafe.
  destruct (resolves_aligned n _ _ _ _ _ _ _ Hr Halb Hg) as (Hb & Halb' & Hcg).
  rewrite (polo_resolved _ _ _ _ _ _ _ _ _ _ _ Hr).
  destruct (airmass_ratio_defined n aoi altitude am Haoi Halt Ham)
    as (Ram & -> & HcR & HnR).
  cbn [bind].
  destruct (mismatch_defined n k Ram aod500 pw Hk HcR HnR Haod Hpw Hsafe)
    as (smm & -> & Hcs & Hns).
  cbn [bind]. rewrite Hg. cbn [bind]. unfold v_mul.
  destruct (binop_defined PrimFloat.mul py_mul n gv smm Hcg Hcs)
    as (v & -> & _ & _).
  - intros x y _ ->. discriminate.
  - now exists v.
Qed.

(** C8 (as amended): on every otherwise-valid call (element-aligned
    inputs, scalars or arrays of one length, whose albedo polynomial
    evaluates) the degenerate inputs raise nothing and give an infinity or
    not-a-number at each position concerned, with one exception.  The
    exception: an [aod500] that is a built-in number equal to zero, under
    a built-in [c4] (always so with a module type), raises
    [ZeroDivisionError] at [c4/aod500].  Otherwise the call returns, and
    at each position a zero [aod500] (via [c4/aod500]) or a zero
    [airmass_absolute] (via the [Ram] division) gives an infinity or
    not-a-number and a negative [precipitable_water] (via the square
    root) gives not-a-number. *)
Theorem C8_degenerate_inputs :
  forall (E : Externals) (n : nat) (pw am aod500 aoi altitude albedo : value)
         (mt : option string) (cs : option (list value))
         (k : six) (b : three) (albedo' gv : value),
    resolves mt cs albedo k b albedo' -> scalars k ->
    conforms n pw -> conforms n am -> conforms n aod500 ->
    conforms n aoi -> conforms n altitude -> conforms n albedo ->
    albedo_correction b albedo' = Ok gv ->
    (python_zero aod500 = true -> is_numpy (c4 k) = false ->
     spectral_factor_polo pw am aod500 aoi altitude mt cs albedo
     = Raise ZeroDivisionError)
    /\ (python_zero aod500 = false \/ is_numpy (c4 k) = true ->
        exists v,
          spectral_factor_polo pw am aod500 aoi altitude mt cs albedo = Ok v
          /\ conforms n v
          /\ forall i, i < n ->
               ((to_float (elem i aod500) =? 0)%float = true ->
                nonfinite (to_float (elem i v)) = true)
               /\ (negative (to_float (elem i pw)) = true ->
                   elem i v = NpFloat nan)
               /\ ((to_float (elem i am) =? 0)%float = true ->
                   nonfinite (to_float (elem i v)) = true)).
Proof.
  intros E n pw am aod500 aoi altitude albedo mt cs k b albedo' gv
         Hr Hk Hpw Ham Haod Haoi Halt Halb Hg.
  split.
  - intros Hz Hpy.
    rewrite (polo_resolved _ _ _ _ _ _ _ _ _ _ _ Hr).
    destruct (airmass_ratio_defined n aoi altitude am Haoi Halt Ham)
      as (Ram & -> & HcR & HnR).
    cbn [bind]. now rewrite (mismatch_zero_division n).
  - intros Hsafe.
    destruct (polo_aligned_returns n _ _ _ _ _ _ _ _ _ _ _ _ Hr Hk
                Hpw Ham Haod Haoi Halt Halb Hg Hsafe) as [v Hv].
    pose proof (polo_elementwise n _ _ _ _ _ _ _ _ _ _ _ Hr Hk
                  Hpw Ham Haod Haoi Halt Halb) as Hew.
    rewrite Hv in Hew. destruct Hew as [Hcv Hpos].
    exists v. split; [exact Hv | ]. split; [assumption | ].
    intros i Hi. specialize (Hpos i Hi).
    assert (Hr' : resolves mt cs (elem i albedo) k b (elem i albedo')).
    { destruct Hr; constructor. }
    assert (Hc4 : is_array (c4 k) = false) by apply Hk.
    rewrite (polo_scalar _ _ _ _ _ _ _ _ _ _ _ Hr' Hk) in Hpos
      by apply elem_is_scalar.
    destruct (v_div (c4 k) (elem i aod500)) as [t3|e] eqn:Ht3;
      [ | discriminate Hpos ].
    cbn [bind] in Hpos.
    destruct (albedo_correction b (elem i albedo')) as [g|e];
      [ | discriminate Hpos ].
    cbn [bind] in Hpos. injection Hpos as Hpos. rewrite <- Hpos.
    pose proof (v_div_number _ _ _ Hc4 (elem_is_scalar i aod500) Ht3) as Hn.
    cbn [to_float]. unfold finish, smm_with, Ram_float.
    split; [ | split ].
    + intros Hzero. apply nonfinite_mul_r, nonfinite_add_l, nonfinite_add_r.
      rewrite Hn. now apply nonfinite_div_zero.
    + intros Hneg.
      now rewrite (sqrt_negative _ Hneg), mul_nan_r, add_nan_r, mul_nan_r.
    + intros Hzero. apply nonfinite_mul_r.
      do 3 apply nonfinite_add_l. apply nonfinite_mul_r.
      now apply nonfinite_div_zero.
Qed.

Lemma C8_witness :
  exists v,
    spectral_factor_polo (E := toy) (NpArray [1.42; -1]%float) (PyFloat 1.5)
      (NpArray [0; 0.2]%float) (PyFloat 30) (PyFloat 0)
      (Some (key_of monosi)) None (PyFloat 0.2)
    = Ok v
    /\ nonfinite (to_float (elem 0 v)) = true
    /\ elem 1 v = NpFloat nan.
Proof.
  destruct (proj2 (C8_degenerate_inputs toy 2
                     (NpArray [1.42; -1]%float) (PyFloat 1.5)
                     (NpArray [0; 0.2]%float) (PyFloat 30) (PyFloat 0)
                     (PyFloat 0.2)
                     (Some (key_of monosi)) None
                     (table_A monosi) (table_B monosi) (PyFloat 0.2)
                     (PyFloat (sum_three (table_B monosi)))
                     (by_module_type monosi (PyFloat 0.2))
                     (scalars_table_A monosi)
                     eq_refl I eq_refl I I I eq_refl)
              (or_introl eq_refl))
    as (v & Hv & _ & Hpos).
  exists v. split; [exact Hv | ]. split.
  - apply (proj1 (Hpos 0 ltac:(lia))). reflexivity.
  - apply (proj1 (proj2 (Hpos 1 ltac:(lia)))). reflexivity.
Defined.

(** * Further properties of [spectral_factor_polo] *)

(** ** Kinds and shapes of what an operator returns *)

Section Kinds.

Variable f : float -> float -> float.
Variable pyf : float -> float -> result float.

Lemma binop_kind a b c :
  v_binop f pyf a b = Ok c -> is_numpy c = is_numpy a || is_numpy b.
Proof.
  destruct a as [x|x|xs], b as [y|y|ys]; cbn;
    try (intros [= <-]; reflexivity).
  - destruct (pyf x y); cbn; [intros [= <-]; reflexivity | discriminate].
  - destruct (broadcast f xs ys); cbn; [intros [= <-]; reflexivity | discriminate].
Qed.

Lemma binop_shape a b c :
  v_binop f pyf a b = Ok c -> is_array c = is_array a || is_array b.
Proof.
  destruct a as [x|x|xs], b as [y|y|ys]; cbn;
    try (intros [= <-]; reflexivity).
  - destruct (pyf x y); cbn; [intros [= <-]; reflexivity | discriminate].
  - destruct (broadcast f xs ys); cbn; [intros [= <-]; reflexivity | discriminate].
Qed.

Lemma broadcast_mismatch (xs ys : list float) :
  length xs <> length ys -> length xs <> 1 -> length ys <> 1 ->
  broadcast f xs ys = Raise (ValueError shape_mismatch).
Proof.
  intros Hne Hx Hy. unfold broadcast.
  destruct (Nat.eqb_spec (length xs) (length ys)) as [Heq|_]; [contradiction | ].
  destruct xs as [|x [|x' xs]], ys as [|y [|y' ys]]; cbn in *;
    congruence || reflexivity.
Qed.

End Kinds.

Lemma lift2_inv op ra rb c :
  lift2 op ra rb = Ok c ->
  exists a b, ra = Ok a /\ rb = Ok b /\ op a b = Ok c.
Proof.
  unfold lift2. destruct ra as [a|e]; cbn; [ | discriminate ].
  destruct rb as [b|e]; cbn; [ | discriminate ].
  intros H. now exists a, b.
Qed.

Lemma div_nan_r x : (x / nan)%float = nan.
Proof.
  apply Prim2SF_inj. rewrite div_spec. change (Prim2SF nan) with S754_nan.
  destruct (Prim2SF x); reflexivity.
Qed.

Lemma add_nan_l x : (nan + x)%float = nan.
Proof.
  apply Prim2SF_inj. rewrite add_spec. change (Prim2SF nan) with S754_nan.
  reflexivity.
Qed.

(** X1: whatever the kinds of the arguments, a call that returns returns a
    NumPy object (a [float64] scalar or an array), never a built-in float:
    the term [coeff[5]*np.sqrt(precipitable_water)] is a NumPy value and
    every later operation keeps it one. *)
Theorem X1_returns_numpy :
  forall (E : Externals) (pw am aod500 aoi altitude albedo : value)
         (mt : option string) (cs : option (list value)) (v : value),
    spectral_factor_polo pw am aod500 aoi altitude mt cs albedo = Ok v ->
    is_numpy v = true.
Proof.
  intros E pw am aod500 aoi altitude albedo mt cs v H.
  unfold spectral_factor_polo in H.
  destruct (is_None mt && is_None cs); [discriminate | ].
  destruct (negb (is_None mt) && negb (is_None cs)); [discriminate | ].
  cbv zeta in H.
  destruct (get_absolute_airmass _ _) as [am90|e]; [ | discriminate ].
  cbn [bind] in H.
  destruct (v_div am90 am) as [Ram|e]; [ | discriminate ].
  cbn [bind] in H.
  match type of H with bind ?r _ = _ => destruct r as [[[coeff c_albedo] alb]|e] end;
    [ | discriminate ].
  cbn [bind] in H.
  match type of H with bind ?r _ = _ => destruct r as [smm|e] eqn:Hs end;
    [ | discriminate ].
  cbn [bind] in H.
  match type of H with bind ?r _ = _ => destruct r as [g|e] end;
    [ | discriminate ].
  cbn [bind] in H.
  apply lift2_inv in Hs as (s3 & t4 & _ & Ht4 & Hs).
  apply lift2_inv in Ht4 as (k5 & q & _ & [= <-] & Ht4).
  apply binop_kind in Ht4, Hs, H.
  rewrite H, Hs, Ht4.
  destruct pw; cbn; now rewrite !orb_true_r.
Qed.

Lemma X1_witness :
  exists v,
    spectral_factor_polo (E := toy) (PyFloat 1.42) (PyFloat 1.5) (PyFloat 0.2)
      (PyFloat 30) (PyFloat 0) (Some "monosi"%string) None (PyFloat 0.2) = Ok v
    /\ is_numpy v = true.
Proof.
  eexists. split; [vm_compute; reflexivity | ].
  apply (X1_returns_numpy toy (PyFloat 1.42) (PyFloat 1.5) (PyFloat 0.2)
           (PyFloat 30) (PyFloat 0) (PyFloat 0.2) (Some "monosi"%string) None).
  vm_compute. reflexivity.
Defined.

Ltac invert_lift2 :=
  repeat match goal with
         | H : lift2 _ _ _ = Ok _ |- _ =>
             apply lift2_inv in H as (? & ? & ? & ? & ?)
         | H : Ok _ = Ok _ |- _ => injection H as <-
         end.

Ltac shapes :=
  unfold v_add, v_mul, v_div, v_pow in *;
  repeat match goal with
         | H : v_binop _ _ _ _ = Ok _ |- _ => apply binop_shape in H
         end;
  repeat match goal with
         | H : is_array ?z = _ |- _ => is_var z; rewrite H in *; clear H
         end.

Lemma shape_sqrt pw : is_array (np_sqrt pw) = is_array pw.
Proof. now destruct pw. Qed.

Lemma shape_airmass_ratio {E : Externals} aoi altitude am Ram :
  airmass_ratio aoi altitude am = Ok Ram ->
  is_array Ram = is_array aoi || is_array altitude || is_array am.
Proof.
  unfold airmass_ratio, get_absolute_airmass.
  destruct (v_binop _ _ _ _) as [am90|e] eqn:H90; cbn [bind]; [ | discriminate ].
  intros HR. apply binop_shape in H90, HR. rewrite HR, H90.
  now destruct aoi, altitude.
Qed.

Lemma shape_mismatch_expression {E : Externals} k Ram aod500 pw smm :
  scalars k -> mismatch k Ram aod500 pw = Ok smm ->
  is_array smm = is_array Ram || is_array aod500 || is_array pw.
Proof.
  intros (H0 & H1 & H2 & H3 & H4 & H5) H. unfold mismatch in H.
  invert_lift2. shapes.
  rewrite H0, H1, H2, H3, H4, H5, shape_sqrt.
  destruct (is_array Ram), (is_array aod500), (is_array pw); reflexivity.
Qed.

Lemma shape_albedo {E : Externals} b albedo g :
  scalars3 b -> albedo_correction b albedo = Ok g ->
  is_array g = is_array albedo.
Proof.
  intros (H0 & H1 & H2) H. unfold albedo_correction in H.
  invert_lift2. shapes.
  rewrite H0, H1, H2. cbn. destruct (is_array albedo); reflexivity.
Qed.

(** X2: a call that returns returns an array exactly when one of the
    arguments it uses is an array: [precipitable_water],
    [airmass_absolute], [aod500], [aoi], [altitude], and the albedo that
    is used, which with explicit coefficients is the constant 0.2, so that
    an array passed as [albedo] alone then still gives a scalar. *)
Theorem X2_result_shape :
  forall (E : Externals) (pw am aod500 aoi altitude albedo : value)
         (mt : option string) (cs : option (list value))
         (k : six) (b : three) (albedo' v : value),
    resolves mt cs albedo k b albedo' -> scalars k ->
    spectral_factor_polo pw am aod500 aoi altitude mt cs albedo = Ok v ->
    is_array v
    = is_array pw || is_array am || is_array aod500 || is_array aoi
      || is_array altitude || is_array albedo'.
Proof.
  intros E pw am aod500 aoi altitude albedo mt cs k b albedo' v Hr Hk H.
  assert (Hb : scalars3 b).
  { destruct Hr; [apply scalars3_table_B | repeat split]. }
  rewrite (polo_resolved _ _ _ _ _ _ _ _ _ _ _ Hr) in H.
  destruct (airmass_ratio aoi altitude am) as [Ram|e] eqn:HR; [ | discriminate ].
  cbn [bind] in H.
  destruct (mismatch k Ram aod500 pw) as [smm|e] eqn:Hm; [ | discriminate ].
  cbn [bind] in H.
  destruct (albedo_correction b albedo') as [g|e] eqn:Hg; [ | discriminate ].
  cbn [bind] in H.
  apply binop_shape in H. apply shape_airmass_ratio in HR.
  apply (shape_mismatch_expression _ _ _ _ _ Hk) in Hm.
  apply (shape_albedo _ _ _ Hb) in Hg.
  rewrite H, Hg, Hm, HR.
  destruct (is_array pw), (is_array am), (is_array aod500), (is_array aoi),
    (is_array altitude), (is_array albedo'); reflexivity.
Qed.

Lemma X2_witness :
  exists v,
    spectral_factor_polo (E := toy) (PyFloat 1.42) (PyFloat 1.5) (PyFloat 0.2)
      (PyFloat 30) (PyFloat 0) None (Some (as_list (table_A cigs) ++ []))
      (NpArray [0.1; 0.2; 0.3]%float) = Ok v
    /\ is_array v = false.
Proof.
  eexists. split; [vm_compute; reflexivity | ].
  apply (X2_result_shape toy (PyFloat 1.42) (PyFloat 1.5) (PyFloat 0.2)
           (PyFloat 30) (PyFloat 0) (NpArray [0.1; 0.2; 0.3]%float)
           None (Some (as_list (table_A cigs) ++ []))
           (table_A cigs) neutral (PyFloat 0.2) _
           (by_coefficients (table_A cigs) [] (NpArray [0.1; 0.2; 0.3]%float))
           (scalars_table_A cigs)).
  vm_compute. reflexivity.
Defined.

(** ** Built-in floats and NumPy floats as arguments *)

Lemma v_div_nonzero a b :
  is_array a = false -> is_array b = false -> (to_float b =? 0)%float = false ->
  exists t, v_div a b = Ok t /\ to_float t = (to_float a / to_float b)%float.
Proof.
  intros Ha Hb Hz.
  destruct (v_div_defined_scalar a b Ha Hb) as [t Ht].
  - destruct b; [exact Hz | reflexivity | reflexivity].
  - exists t. split; [exact Ht | now apply v_div_number].
Qed.

(** X3: on a scalar call it makes no difference whether
    [precipitable_water], [airmass_absolute] and [aoi] are passed as
    built-in floats or as NumPy floats, the other arguments being the
    same: the outcome (the number returned or the exception raised)
    depends on the numbers only.  The same holds for [aod500] unless it is
    zero.  (The altitude is left as it is: pvlib treats a built-in
    altitude with built-in arithmetic.) *)
Theorem X3_scalar_kind_irrelevant :
  forall (E : Externals) (pw am aod500 aoi altitude albedo : value)
         (pw' am' aod500' aoi' : value)
         (mt : option string) (cs : option (list value))
         (k : six) (b : three) (albedo' : value),
    resolves mt cs albedo k b albedo' -> scalars k ->
    is_array pw = false -> is_array am = false -> is_array aod500 = false ->
    is_array aoi = false -> is_array altitude = false -> is_array albedo = false ->
    is_array pw' = false -> is_array am' = false -> is_array aod500' = false ->
    is_array aoi' = false ->
    to_float pw' = to_float pw -> to_float am' = to_float am ->
    to_float aoi' = to_float aoi ->
    to_float aod500' = to_float aod500 ->
    spectral_factor_polo pw' am' aod500 aoi' altitude mt cs albedo
    = spectral_factor_polo pw am aod500 aoi altitude mt cs albedo
    /\ ((to_float aod500 =? 0)%float = false ->
        spectral_factor_polo pw' am' aod500' aoi' altitude mt cs albedo
        = spectral_factor_polo pw am aod500 aoi altitude mt cs albedo).
Proof.
  intros E pw am aod500 aoi altitude albedo pw' am' aod500' aoi'
         mt cs k b albedo' Hr Hk Hpw Ham Haod Haoi Halt Halb
         Hpw' Ham' Haod' Haoi' Epw Eam Eaoi Eaod.
  assert (Hc4 : is_array (c4 k) = false) by apply Hk.
  rewrite !(polo_scalar _ _ _ _ _ _ _ _ _ _ _ Hr Hk) by assumption.
  rewrite Epw, Eam, Eaoi. split; [reflexivity | ].
  intros Hz.
  destruct (v_div_nonzero (c4 k) aod500 Hc4 Haod Hz) as (t & -> & Ht).
  rewrite <- Eaod in Hz.
  destruct (v_div_nonzero (c4 k) aod500' Hc4 Haod' Hz) as (t' & -> & Ht').
  cbn [bind]. now rewrite Ht, Ht', Eaod.
Qed.

Lemma X3_witness :
  spectral_factor_polo (E := toy) (NpFloat 1.42) (NpFloat 1.5) (NpFloat 0.2)
    (NpFloat 30) (PyFloat 0) (Some (key_of asi)) None (PyFloat 0.2)
  = spectral_factor_polo (E := toy) (PyFloat 1.42) (PyFloat 1.5) (PyFloat 0.2)
      (PyFloat 30) (PyFloat 0) (Some (key_of asi)) None (PyFloat 0.2).
Proof.
  apply (proj2 (X3_scalar_kind_irrelevant toy
                  (PyFloat 1.42) (PyFloat 1.5) (PyFloat 0.2) (PyFloat 30)
                  (PyFloat 0) (PyFloat 0.2)
                  (NpFloat 1.42) (NpFloat 1.5) (NpFloat 0.2) (NpFloat 30)
                  (Some (key_of asi)) None (table_A asi) (table_B asi)
                  (PyFloat 0.2) (by_module_type asi (PyFloat 0.2))
                  (scalars_table_A asi)
                  eq_refl eq_refl eq_refl eq_refl eq_refl eq_refl
                  eq_refl eq_refl eq_refl eq_refl
                  eq_refl eq_refl eq_refl eq_refl)).
  reflexivity.
Defined.

(** ** Missing data *)

(** X4: a not-a-number [precipitable_water], [airmass_absolute] or
    [aod500] raises nothing on a scalar call and makes the result
    not-a-number (the albedo polynomial evaluating, and [aod500] not being
    a built-in zero). *)
Theorem X4_nan_propagates :
  forall (E : Externals) (pw am aod500 aoi altitude albedo : value)
         (mt : option string) (cs : option (list value))
         (k : six) (b : three) (albedo' gv : value),
    resolves mt cs albedo k b albedo' -> scalars k ->
    is_array pw = false -> is_array am = false -> is_array aod500 = false ->
    is_array aoi = false -> is_array altitude = false -> is_array albedo = false ->
    albedo_correction b albedo' = Ok gv ->
    python_zero aod500 = false ->
    to_float pw = nan \/ to_float am = nan \/ to_float aod500 = nan ->
    spectral_factor_polo pw am aod500 aoi altitude mt cs albedo
    = Ok (NpFloat nan).
Proof.
  intros E pw am aod500 aoi altitude albedo mt cs k b albedo' gv
         Hr Hk Hpw Ham Haod Haoi Halt Halb Hg Hz Hnan.
  assert (Hc4 : is_array (c4 k) = false) by apply Hk.
  rewrite (polo_scalar _ _ _ _ _ _ _ _ _ _ _ Hr Hk) by assumption.
  destruct (v_div_defined_scalar _ _ Hc4 Haod Hz) as [t3 Ht3].
  rewrite Ht3, Hg. cbn [bind].
  pose proof (v_div_number _ _ _ Hc4 Haod Ht3) as Hn.
  unfold finish, smm_with, Ram_float.
  destruct Hnan as [-> | [-> | Ha]].
  - change (sqrt nan) with nan.
    now rewrite mul_nan_r, add_nan_r, mul_nan_r.
  - now rewrite div_nan_r, mul_nan_r, !add_nan_l, mul_nan_r.
  - now rewrite Hn, Ha, div_nan_r, add_nan_r, add_nan_l, mul_nan_r.
Qed.

Lemma X4_witness :
  spectral_factor_polo (E := toy) (PyFloat nan) (PyFloat 1.5) (PyFloat 0.2)
    (PyFloat 30) (PyFloat 0) (Some (key_of cdte)) None (PyFloat 0.2)
  = Ok (NpFloat nan).
Proof.
  apply (X4_nan_propagates toy (PyFloat nan) (PyFloat 1.5) (PyFloat 0.2)
           (PyFloat 30) (PyFloat 0) (PyFloat 0.2)
           (Some (key_of cdte)) None (table_A cdte) (table_B cdte)
           (PyFloat 0.2) (PyFloat (sum_three (table_B cdte)))
           (by_module_type cdte (PyFloat 0.2)) (scalars_table_A cdte)
           eq_refl eq_refl eq_refl eq_refl eq_refl eq_refl eq_refl eq_refl).
  left. reflexivity.
Defined.

(** ** Arrays of different lengths *)

Ltac reduce_operator :=
  first [ rewrite binop_arr_arr
        | rewrite binop_arr_l by first [assumption | reflexivity]
        | rewrite binop_arr_r by first [assumption | reflexivity]
        | rewrite binop_np_l by first [assumption | reflexivity]
        | rewrite binop_np_r by first [assumption | reflexivity] ];
  cbn [bind].

(** X5: an array of [airmass_absolute] and an array of
    [precipitable_water] whose lengths differ, neither being 1, make the
    call raise NumPy's broadcasting [ValueError] (the other arguments being
    scalars and [aod500] not a built-in zero); the albedo is not looked
    at. *)
Theorem X5_length_mismatch_raises :
  forall (E : Externals) (xs ps : list float) (aod500 aoi altitude albedo : value)
         (mt : option string) (cs : option (list value))
         (k : six) (b : three) (albedo' : value),
    resolves mt cs albedo k b albedo' -> scalars k ->
    is_array aod500 = false -> is_array aoi = false -> is_array altitude = false ->
    python_zero aod500 = false ->
    length xs <> length ps -> length xs <> 1 -> length ps <> 1 ->
    spectral_factor_polo (NpArray ps) (NpArray xs) aod500 aoi altitude mt cs albedo
    = Raise (ValueError shape_mismatch).
Proof.
  intros E xs ps aod500 aoi altitude albedo mt cs k b albedo'
         Hr (H0 & H1 & H2 & H3 & H4 & H5) Haod Haoi Halt Hz Hne Hx Hp.
  rewrite (polo_resolved _ _ _ _ _ _ _ _ _ _ _ Hr).
  rewrite airmass_ratio_array by assumption. cbn [bind].
  destruct (v_div_defined_scalar _ _ H4 Haod Hz) as [t3 Ht3].
  pose proof (binop_scalar _ _ _ _ _ H4 Haod Ht3) as Hs.
  unfold mismatch, lift2. cbn [bind np_sqrt]. rewrite Ht3. cbn [bind].
  unfold v_mul, v_add, v_pow, v_div. repeat reduce_operator.
  cbn [v_binop]. rewrite broadcast_mismatch; [reflexivity | | | ];
    now rewrite ?length_map.
Qed.

Lemma X5_witness :
  spectral_factor_polo (E := toy) (NpArray [1.42; 2.0]%float)
    (NpArray [1.5; 2.0; 2.5]%float) (PyFloat 0.2) (PyFloat 30) (PyFloat 0)
    (Some (key_of monosi)) None (PyFloat 0.2)
  = Raise (ValueError shape_mismatch).
Proof.
  apply (X5_length_mismatch_raises toy [1.5; 2.0; 2.5]%float [1.42; 2.0]%float
           (PyFloat 0.2) (PyFloat 30) (PyFloat 0) (PyFloat 0.2)
           (Some (key_of monosi)) None (table_A monosi) (table_B monosi)
           (PyFloat 0.2) (by_module_type monosi (PyFloat 0.2))
           (scalars_table_A monosi) eq_refl eq_refl eq_refl eq_refl);
    cbn; lia.
Defined.

(** ** Which exceptions a call can raise *)

(** X6: with explicit coefficients whose fifth entry is a NumPy float, an
    [aod500] of zero raises nothing on a scalar call, even as a built-in
    number: the division is NumPy's and the result is an infinity or
    not-a-number. *)
Theorem X6_numpy_coefficient_never_divides_by_zero :
  forall (E : Externals), pow_of_one E ->
  forall (pw am aod500 aoi altitude albedo : value) (k : six) (rest : list value),
    scalars k -> is_numpy (c4 k) = true ->
    is_array pw = false -> is_array am = false -> is_array aod500 = false ->
    is_array aoi = false -> is_array altitude = false ->
    (to_float aod500 =? 0)%float = true ->
    exists r,
      spectral_factor_polo pw am aod500 aoi altitude None
        (Some (as_list k ++ rest)) albedo = Ok (NpFloat r)
      /\ nonfinite r = true.
Proof.
  intros E H1 pw am aod500 aoi altitude albedo k rest
         Hk Hnp Hpw Ham Haod Haoi Halt Hz.
  rewrite (polo_coefficients_alone _ _ _ _ _ _ _ _ H1).
  rewrite airmass_ratio_scalar by assumption. cbn [bind].
  rewrite mismatch_scalar by assumption.
  destruct (c4 k) as [x|x|xs] eqn:Hc4; try discriminate.
  - unfold v_div. rewrite binop_np_l by assumption. cbn [bind].
    eexists. split; [reflexivity | ].
    unfold smm_with. apply nonfinite_add_l, nonfinite_add_r.
    cbn [to_float]. now apply nonfinite_div_zero.
  - destruct Hk as (_ & _ & _ & _ & Hk4 & _). rewrite Hc4 in Hk4. discriminate.
Qed.

Lemma X6_witness :
  exists r,
    spectral_factor_polo (E := toy) (PyFloat 1.42) (PyFloat 1.5) (PyFloat 0)
      (PyFloat 30) (PyFloat 0) None
      (Some (as_list (Six (NpFloat 0.0027) (NpFloat 10.34) (NpFloat 9.48)
                        (NpFloat 0.307) (NpFloat 0.00077) (NpFloat 0.006)) ++ []))
      (PyFloat 0.2)
    = Ok (NpFloat r)
    /\ nonfinite r = true.
Proof.
  apply (X6_numpy_coefficient_never_divides_by_zero toy toy_pow_of_one
           (PyFloat 1.42) (PyFloat 1.5) (PyFloat 0) (PyFloat 30) (PyFloat 0)
           (PyFloat 0.2)
           (Six (NpFloat 0.0027) (NpFloat 10.34) (NpFloat 9.48)
                (NpFloat 0.307) (NpFloat 0.00077) (NpFloat 0.006)) []);
    first [ reflexivity | repeat split ].
Defined.

(** X7: at an albedo of zero the two albedo-dependent terms of the
    polynomial vanish and the correction is exactly the third table-B
    entry of the module type, so that the call returns that entry times
    the mismatch expression (0.0 ** 2 being 0.0). *)
Theorem X7_albedo_zero :
  forall (E : Externals), float_pow 0 2 = Ok 0%float ->
  forall (t : technology),
    albedo_correction (table_B t) (PyFloat 0) = Ok (b2 (table_B t))
    /\ forall pw am aod500 aoi altitude,
         spectral_factor_polo pw am aod500 aoi altitude (Some (key_of t)) None
           (PyFloat 0)
         = (Ram <- airmass_ratio aoi altitude am ;;
            smm <- mismatch (table_A t) Ram aod500 pw ;;
            v_mul (b2 (table_B t)) smm).
Proof.
  intros E H0 t.
  assert (Hg : albedo_correction (table_B t) (PyFloat 0) = Ok (b2 (table_B t))).
  { unfold albedo_correction, lift2.
    destruct t; cbn; change (0 / 0.2)%float with 0%float; rewrite H0;
      reflexivity. }
  split; [exact Hg | ].
  intros pw am aod500 aoi altitude. rewrite polo_by_module_type.
  destruct (airmass_ratio aoi altitude am) as [Ram|e]; [ | reflexivity ].
  cbn [bind]. destruct (mismatch _ _ _ _) as [smm|e]; [ | reflexivity ].
  cbn [bind]. now rewrite Hg.
Qed.

Lemma X7_witness :
  albedo_correction (E := toy) (table_B asi) (PyFloat 0) = Ok (b2 (table_B asi)).
Proof.
  apply (proj1 (X7_albedo_zero toy eq_refl asi)).
Defined.

(** X8: with a module type that is none of the four keys the call never
    looks at [precipitable_water], [aod500] or [albedo]: its outcome is
    the same whatever these three are (no division by [aod500], no square
    root, no power is attempted before the lookup fails). *)
Theorem X8_unknown_key_ignores_the_rest :
  forall (E : Externals) (key : string), known_key key = false ->
  forall (am aoi altitude pw aod500 albedo pw' aod500' albedo' : value),
    spectral_factor_polo pw am aod500 aoi altitude (Some key) None albedo
    = spectral_factor_polo pw' am aod500' aoi altitude (Some key) None albedo'.
Proof.
  intros E key Hkey am aoi altitude pw aod500 albedo pw' aod500' albedo'.
  now rewrite !(polo_unknown_key _ _ _ _ _ _ _ Hkey).
Qed.

Lemma X8_witness :
  spectral_factor_polo (E := toy) (PyFloat 1.42) (PyFloat 1.5) (PyFloat 0.2)
    (PyFloat 30) (PyFloat 0) (Some "CdTe"%string) None (PyFloat 0.2)
  = spectral_factor_polo (E := toy) (PyFloat (-1)) (PyFloat 1.5) (PyFloat 0)
      (PyFloat 30) (PyFloat 0) (Some "CdTe"%string) None (NpArray []).
Proof.
  apply (X8_unknown_key_ignores_the_rest toy "CdTe" eq_refl).
Defined.

(** X9: on a scalar call with one of the four module types and a NumPy
    float for the altitude (so that the pressure is computed by NumPy,
    which does not raise) only two operations can raise: the division
    [coeff[4]/aod500], which raises [ZeroDivisionError] when [aod500] is a
    built-in zero, and the power [(albedo/0.2)**2] of a built-in albedo.
    No [KeyError], [IndexError] or [TypeError] comes from the tables. *)
Theorem X9_exceptions_of_a_scalar_call :
  forall (E : Externals) (t : technology)
         (pw am aod500 aoi albedo : value) (h : float) (e : exn),
    is_array pw = false -> is_array am = false -> is_array aod500 = false ->
    is_array aoi = false -> is_array albedo = false ->
    spectral_factor_polo pw am aod500 aoi (NpFloat h) (Some (key_of t)) None albedo
    = Raise e ->
    (e = ZeroDivisionError /\ python_zero aod500 = true)
    \/ (exists x, albedo = PyFloat x /\ float_pow (x / 0.2) 2 = Raise e).
Proof.
  intros E t pw am aod500 aoi albedo h e Hpw Ham Haod Haoi Halb H.
  rewrite (polo_scalar _ _ _ _ _ _ _ _ _ _ _ (by_module_type t albedo)
             (scalars_table_A t)) in H by first [assumption | reflexivity].
  destruct (python_zero aod500) eqn:Hz.
  - left. split; [ | reflexivity ].
    assert (Hc : exists x, c4 (table_A t) = PyFloat x) by (destruct t; now eexists).
    destruct Hc as [x Hc]. rewrite Hc, v_div_builtin_zero in H by assumption.
    now injection H.
  - right.
    destruct (v_div_defined_scalar (c4 (table_A t)) aod500) as [t3 Ht3];
      [apply scalars_table_A | assumption | assumption | ].
    rewrite Ht3 in H. cbn [bind] in H.
    destruct albedo as [x|x|xs]; [ | | discriminate ].
    + exists x. split; [reflexivity | ].
      rewrite albedo_builtin in H by (now destruct t).
      destruct (float_pow (x / 0.2) 2) as [p|e']; cbn in H;
        [discriminate | now injection H as ->].
    + rewrite albedo_numpy in H by apply scalars3_table_B. discriminate.
Qed.

Lemma X9_witness :
  (ZeroDivisionError = ZeroDivisionError /\ python_zero (PyFloat 0) = true)
  \/ (exists x, PyFloat 0.2 = PyFloat x
                /\ float_pow (Externals := toy) (x / 0.2) 2 = Raise ZeroDivisionError).
Proof.
  apply (X9_exceptions_of_a_scalar_call toy monosi (PyFloat 1.42) (PyFloat 1.5)
           (PyFloat 0) (PyFloat 30) (PyFloat 0.2) 0%float ZeroDivisionError
           eq_refl eq_refl eq_refl eq_refl eq_refl).
  vm_compute. reflexivity.
Defined.

(** X10: no result is ever computed from fewer than six explicit
    coefficients: whatever the other arguments, a call with explicit
    coefficients that returns was given at least six of them (a shorter
    sequence is neither padded nor accepted). *)
Theorem X10_result_needs_six_coefficients :
  forall (E : Externals) (pw am aod500 aoi altitude albedo : value)
         (cs : list value) (v : value),
    spectral_factor_polo pw am aod500 aoi altitude None (Some cs) albedo = Ok v ->
    6 <= length cs.
Proof.
  intros E pw am aod500 aoi altitude albedo cs v H.
  unfold spectral_factor_polo in H. cbn [is_None andb negb] in H.
  cbv zeta in H.
  destruct (get_absolute_airmass _ _) as [am90|e]; [ | discriminate ].
  cbn [bind] in H.
  destruct (v_div am90 am) as [Ram|e]; [ | discriminate ].
  cbn [bind] in H.
  match type of H with bind ?r _ = _ => destruct r as [smm|e] eqn:Hs end;
    [ | discriminate ].
  apply lift2_inv in Hs as (s3 & t4 & _ & Ht4 & _).
  apply lift2_inv in Ht4 as (k5 & q & Hk5 & _ & _).
  unfold subscript in Hk5.
  destruct (nth_error cs 5) as [x|] eqn:Hn; [ | discriminate ].
  assert (Hlt : 5 < length cs) by (apply nth_error_Some; congruence).
  lia.
Qed.

Lemma X10_witness :
  6 <= length (as_list (table_A monosi)).
Proof.
  eapply (X10_result_needs_six_coefficients toy (PyFloat 1.42) (PyFloat 1.5)
            (PyFloat 0.2) (PyFloat 30) (PyFloat 0) (PyFloat 0.2)).
  vm_compute. reflexivity.
Defined.
